(** * Machine-maintenance pipeline: data preparation, training, serving

    A shallow embedding of [src/data_processing.py], [src/model_training.py]
    and [app.py], with the properties of the feature-consistency contract
    (encoding, scaling, pipeline ordering, serving-boundary error handling)
    stated and proved over it. *)

From Stdlib Require Import ZArith QArith Qround Ascii String List Lia DecimalString DecimalZ.
From stdpp Require Import gmap strings list sorting.

Local Open Scope string_scope.
Local Open Scope Z_scope.

(** ** Python values, exceptions and the state-and-exception monad *)

Module Py.

(** Exceptions as the sources raise them.  [CustomException] is the
    project's wrapper ([src/custom_exception.py]): a message and the
    original cause.  [LibError] stands for any other exception class coming
    out of a library call. *)
Inductive exn : Type :=
  | ValueError (msg : string)
  | KeyError (msg : string)
  | FileNotFoundError (msg : string)
  | LibError (cls msg : string)
  | CustomException (msg : string) (cause : exn).

(** [str(e)] as used by the f-string of the serving handler.  A
    [KeyError] prints the [repr] of its argument, that is the key between
    single quotes (for a key without quote or backslash characters); the
    other classes print the message itself. *)
Definition exn_str (e : exn) : string :=
  match e with
  | KeyError m => "'" ++ m ++ "'"
  | ValueError m | FileNotFoundError m | LibError _ m
  | CustomException m _ => m
  end.

(** [str(n)] for an [int]. *)
Definition str_of_int (n : Z) : string := NilZero.string_of_int (Z.to_int n).

(** A computation over a mutable object of type [S] that may raise.  The
    state reached when the exception is raised is kept: attribute
    assignments made before a [raise] are not rolled back. *)
Definition M (S A : Type) : Type := S -> (exn + A) * S.

Definition ret {S A} (a : A) : M S A := fun s => (inr a, s).
Definition raise {S A} (e : exn) : M S A := fun s => (inl e, s).
Definition bind {S A B} (c : M S A) (k : A -> M S B) : M S B :=
  fun s => match c s with
           | (inl e, s') => (inl e, s')
           | (inr a, s') => k a s'
           end.
Definition gets {S A} (f : S -> A) : M S A := fun s => (inr (f s), s).
Definition modify {S} (f : S -> S) : M S unit := fun s => (inr tt, f s).
Definition lift {S A} (r : exn + A) : M S A := fun s => (r, s).

(** [try: c except Exception as e: h e]. *)
Definition try_except {S A} (c : M S A) (h : exn -> M S A) : M S A :=
  fun s => match c s with
           | (inl e, s') => h e s'
           | (inr a, s') => (inr a, s')
           end.

End Py.

Import Py.

(** The monad is registered with stdpp's [mbind]/[mret], so sequencing is
    written [x ← c; k]. *)
#[global] Instance M_ret {S} : MRet (M S) := fun A a => Py.ret a.
#[global] Instance M_bind {S} : MBind (M S) := fun A B k c => Py.bind c k.

(** ** sklearn.preprocessing.LabelEncoder

    Library code, outside the repository sources: [preprocess] calls
    [LabelEncoder().fit_transform(col)].  The definitions follow the
    library's documented behaviour, in which [classes_] is the sorted array
    of the distinct labels. *)

Module LabelEncoder.

(** [classes_] after [fit]: the distinct labels of the column in ascending
    order (the encoder sorts the set of observed values; strings compare
    lexicographically, character by character). *)
Definition classes_ (y : list string) : list string :=
  merge_sort String.le (remove_dups y).

(** Position of a label in [classes_]. *)
Fixpoint index_of (cs : list string) (label : string) : option nat :=
  match cs with
  | [] => None
  | c :: cs' =>
      if decide (c = label) then Some O
      else S <$> index_of cs' label
  end.

(** [transform]: each label is replaced by its position in [classes_];
    a label that was not seen by [fit] raises [ValueError]. *)
Fixpoint transform (cs : list string) (y : list string) : exn + list Z :=
  match y with
  | [] => inr []
  | l :: y' =>
      match index_of cs l with
      | None => inl (ValueError "y contains previously unseen labels")
      | Some k =>
          match transform cs y' with
          | inl e => inl e
          | inr ks => inr (Z.of_nat k :: ks)
          end
      end
  end.

(** [le.fit_transform(col)]: fit on the column, then encode that column. *)
Definition fit_transform (y : list string) : exn + list Z :=
  transform (classes_ y) y.

(** [dict(zip(le.classes_, range(len(le.classes_))))], the mapping that
    [preprocess] logs. *)
Definition mapping (y : list string) : list (string * Z) :=
  zip (classes_ y) (Z.of_nat <$> seq 0 (length (classes_ y))).

End LabelEncoder.

(** The spec's wording of the encoding rule, kept apart from the encoder:
    codes in the order the labels are first met. *)
Module FirstSeen.

Fixpoint first_seen_from (seen : list string) (y : list string) : list string :=
  match y with
  | [] => []
  | l :: y' =>
      if decide (l ∈ seen) then first_seen_from seen y'
      else l :: first_seen_from (l :: seen) y'
  end.

Definition first_seen_classes (y : list string) : list string :=
  first_seen_from [] y.

Definition first_seen_code (y : list string) (label : string) : option nat :=
  LabelEncoder.index_of (first_seen_classes y) label.

End FirstSeen.

(** ** Data frames and persisted artefacts *)

Module Frame.

(** A numeric cell of a float column; [None] is NaN, pandas' missing-value
    marker. *)
Definition cell : Type := option Q.
Definition matrix : Type := list (list cell).

Record datetime : Type := mk_datetime
  { year : Z; month : Z; day : Z; hour : Z }.

(** Values of a column: text, numbers (NaN included) and timestamps
    ([VTime None] is NaT). *)
Inductive val : Type :=
  | VStr (s : string)
  | VNum (x : cell)
  | VTime (t : option datetime).

(** A data frame, column by column. *)
Record dataframe : Type := mk_dataframe
  { nrows : nat; cols : gmap string (list val) }.

(** [df[name]]: [KeyError] when the column does not exist. *)
Definition get_col (d : dataframe) (name : string) : exn + list val :=
  match cols d !! name with
  | Some c => inr c
  | None => inl (KeyError name)
  end.

(** [df[name] = c]. *)
Definition set_col (d : dataframe) (name : string) (c : list val) : dataframe :=
  mk_dataframe (nrows d) (<[name := c]> (cols d)).

(** The requested names that are no column of the frame, in the order of
    the request. *)
Definition absent (d : dataframe) (names : list string) : list string :=
  filter (fun n => cols d !! n = None) names.

(** [repr] of a list of names, as in ['Year', 'Month'] (for names without
    quote or backslash characters). *)
Definition repr_names (names : list string) : string :=
  "[" ++ String.concat ", " ((fun n => "'" ++ n ++ "'") <$> names) ++ "]".

(** [df.drop(columns=names, inplace=True)]: every name must exist; one
    [KeyError] lists the names that are no column. *)
Definition drop (d : dataframe) (names : list string) : exn + dataframe :=
  match absent d names with
  | [] => inr (mk_dataframe (nrows d) (foldl (fun c n => delete n c) (cols d) names))
  | missing => inl (KeyError (repr_names missing ++ " not found in axis"))
  end.

(** Conversion of a selection to a float array, row by row; text or
    timestamps cannot be converted. *)
Definition to_cell (v : option val) : exn + cell :=
  match v with
  | Some (VNum x) => inr x
  | Some (VStr s) => inl (ValueError ("could not convert string to float: " ++ s))
  | Some (VTime _) => inl (LibError "TypeError" "invalid type promotion")
  | None => inr None
  end.

Fixpoint to_row (cs : list (list val)) (i : nat) : exn + list cell :=
  match cs with
  | [] => inr []
  | c :: cs' =>
      match to_cell (c !! i) with
      | inl e => inl e
      | inr x =>
          match to_row cs' i with
          | inl e => inl e
          | inr r => inr (x :: r)
          end
      end
  end.

Fixpoint to_rows (cs : list (list val)) (idx : list nat) : exn + matrix :=
  match idx with
  | [] => inr []
  | i :: idx' =>
      match to_row cs i with
      | inl e => inl e
      | inr r =>
          match to_rows cs idx' with
          | inl e => inl e
          | inr rs => inr (r :: rs)
          end
      end
  end.

Definition to_matrix (n : nat) (cs : list (list val)) : exn + matrix :=
  to_rows cs (seq 0 n).

(** The strings of a text column; [None] when some value is not text. *)
Fixpoint as_strings (c : list val) : option (list string) :=
  match c with
  | [] => Some []
  | VStr s :: c' => (s ::.) <$> as_strings c'
  | _ :: _ => None
  end.

End Frame.

Import Frame.

(** Equality of rationals as fractions (numbers in lowest terms are equal
    exactly when they are equal as fractions). *)
#[global] Instance Q_eq_dec : EqDecision Q.
Proof. solve_decision. Defined.

(** ** sklearn.preprocessing.StandardScaler

    Library code, outside the repository sources:
    [split_and_scale_and_save] calls [StandardScaler().fit_transform(X)] and
    the handler calls [scaler.transform].  The definitions follow the
    library's documented behaviour: per-feature mean and population
    variance over the non-NaN values, a scale of 1 where the variance is 0,
    and [(x - mean_) / scale_].  Floats are read as exact rationals, NaN as
    [None].  Rounding is not modelled: where the library's float64
    arithmetic rounds (the mean of 0.1, 0.1, 0.1 is 0.10000000000000002
    there), [nanmean] and [nanvar] give the exact value. *)

(** The square root that turns a variance into a standard deviation. *)
Class Numeric : Type := { sqrtQ : Q → Q }.

Module StandardScaler.

Record ScalerState : Type := mk_scaler
  { mean_ : list cell; var_ : list cell; scale_ : list cell }.

Definition Qsum (l : list Q) : Q := foldr Qplus 0%Q l.

(** The values of feature [j] that are not NaN. *)
Definition column (X : matrix) (j : nat) : list Q :=
  omap (fun row => mjoin (row !! j)) X.

(** Mean over the non-NaN values; NaN when there is none. *)
Definition nanmean (l : list Q) : cell :=
  match l with
  | [] => None
  | _ => Some (Qsum l / inject_Z (Z.of_nat (length l)))%Q
  end.

(** Population variance (divisor [n]) over the non-NaN values. *)
Definition nanvar (l : list Q) : cell :=
  match nanmean l with
  | None => None
  | Some m => nanmean ((fun x => (x - m) * (x - m))%Q <$> l)
  end.

(** [scale_]: the standard deviation, with 1 in place of a standard
    deviation of 0, so that [transform] never divides by zero. *)
Definition handle_zeros_in_scale `{Numeric} (v : cell) : cell :=
  match v with
  | None => None
  | Some v => Some (if Qeq_bool v 0 then 1%Q else sqrtQ v)
  end.

(** [fit]: statistics of each of the [n] feature positions over all rows
    of [X]; an empty array is rejected. *)
Definition fit `{Numeric} (n : nat) (X : matrix) : exn + ScalerState :=
  match X with
  | [] => inl (ValueError "Found array with 0 sample(s)")
  | _ =>
      let stat (f : list Q → cell) := (fun j => f (column X j)) <$> seq 0 n in
      inr {| mean_ := stat nanmean;
             var_ := stat nanvar;
             scale_ := stat (fun l => handle_zeros_in_scale (nanvar l)) |}
  end.

(** One position of [transform]: [(x - mean) / scale]; NaN stays NaN. *)
Definition transform_cell (x : cell) (ms : cell * cell) : cell :=
  match x, ms with
  | Some x, (Some m, Some s) => Some ((x - m) / s)%Q
  | _, _ => None
  end.

Definition transform_row (st : ScalerState) (row : list cell) : list cell :=
  zip_with transform_cell row (zip (mean_ st) (scale_ st)).

(** [transform]: every row must have the width seen by [fit]. *)
Fixpoint transform (st : ScalerState) (X : matrix) : exn + matrix :=
  match X with
  | [] => inr []
  | row :: X' =>
      if decide (length row = length (mean_ st)) then
        match transform st X' with
        | inl e => inl e
        | inr rs => inr (transform_row st row :: rs)
        end
      else inl (ValueError "X has a different number of features than StandardScaler is expecting")
  end.

(** [scaler.fit_transform(X)]: the fitted scaler and the scaled array. *)
Definition fit_transform `{Numeric} (n : nat) (X : matrix)
  : exn + (ScalerState * matrix) :=
  match fit n X with
  | inl e => inl e
  | inr st =>
      match transform st X with
      | inl e => inl e
      | inr X' => inr (st, X')
      end
  end.

End StandardScaler.

Import StandardScaler.

(** ** Library capabilities used by the pipeline *)

(** Error-monad structure on [exn + _], for straight-line library calls. *)
#[global] Instance result_ret : MRet (sum exn) := fun A a => inr a.
#[global] Instance result_bind : MBind (sum exn) := fun A B k r =>
  match r with
  | inl e => inl e
  | inr a => k a
  end.

(** [pd.to_datetime(..., errors="coerce")] on one value: [None] is NaT,
    the result for a value that does not parse. *)
Class Pandas : Type :=
  { to_datetime : val → option datetime;
    (** [str(pd.Index(names))], the rendering of a list of labels in
        pandas' messages. *)
    index_str : list string → string }.

(** The argument of the [KeyError] that [df[names]] raises: the absent
    names, each once, or the whole request when none of it is a column. *)
Definition not_in_index `{Pandas} (names missing : list string) : string :=
  if decide (length missing = length names)
  then "None of [" ++ index_str names ++ "] are in the [columns]"
  else repr_names (reverse (remove_dups (reverse missing))) ++ " not in index".

(** [df[names]]: the listed columns, in the listed order; one [KeyError]
    for all the names that are no column. *)
Definition select `{Pandas} (d : dataframe) (names : list string) : exn + list (list val) :=
  match absent d names with
  | [] => inr (omap (fun n => cols d !! n) names)
  | missing => inl (KeyError (not_in_index names missing))
  end.

(** Objects that [joblib] writes and reads, and the CSV input. *)
Inductive artifact (E : Type) : Type :=
  | ACsv (d : dataframe)
  | AArray (X : matrix)
  | ASeries (y : list val)
  | AScaler (s : ScalerState)
  | AEstimator (e : E).
Arguments ACsv {E} d.
Arguments AArray {E} X.
Arguments ASeries {E} y.
Arguments AScaler {E} s.
Arguments AEstimator {E} e.

(** [sklearn.model_selection.train_test_split(X, y, test_size=...,
    random_state=..., stratify=...)], giving
    [(X_train, X_test, y_train, y_test)]. *)
Class ModelSelection : Type :=
  { train_test_split :
      matrix → list val → Q → Z → option (list val) →
      exn + (matrix * matrix * list val * list val) }.

(** The classifier: construction with [random_state] and [max_iter], [fit]
    (which returns the fitted estimator) and [predict].  The data handed to
    [fit] and [predict] are the attributes of the training object, which
    are [None] until loaded. *)
Class Classifier : Type :=
  { estimator : Type;
    LogisticRegression : Z → Z → estimator;
    estimator_fit :
      estimator → option (artifact estimator) → option (artifact estimator) →
      exn + estimator;
    estimator_predict :
      estimator → option (artifact estimator) → exn + list val }.

(** [sklearn.metrics]: each score of the true labels against the predicted
    ones; the last three take [average]. *)
Class Metrics `{Classifier} : Type :=
  { accuracy_score : option (artifact estimator) → list val → exn + Q;
    precision_score : option (artifact estimator) → list val → string → exn + Q;
    recall_score : option (artifact estimator) → list val → string → exn + Q;
    f1_score : option (artifact estimator) → list val → string → exn + Q }.

(** [os.path.join(a, b)]. *)
Definition path_join (a b : string) : string :=
  match b with
  | String "/"%char _ => b
  | _ =>
      match String.rev a with
      | EmptyString => b
      | String "/"%char _ => a ++ b
      | _ => a ++ "/" ++ b
      end
  end.

(** ** src/data_processing.py *)

Module DataProcessing.
Section DataProcessing.
Context `{Numeric, Pandas, ModelSelection, Classifier}.

Record state : Type := mk_state
  { input_path : string;
    output_path : string;
    df : option dataframe;
    features : option (list string);
    fs : gmap string (artifact estimator) }.

Definition set_df (d : option dataframe) (s : state) : state :=
  mk_state (input_path s) (output_path s) d (features s) (fs s).
Definition set_features (f : option (list string)) (s : state) : state :=
  mk_state (input_path s) (output_path s) (df s) f (fs s).
Definition set_fs (m : gmap string (artifact estimator)) (s : state) : state :=
  mk_state (input_path s) (output_path s) (df s) (features s) m.

(** [__init__]. *)
Definition init (input output : string) (files : gmap string (artifact estimator))
  : state :=
  mk_state input output None None files.

(** [joblib.dump(obj, os.path.join(self.output_path, name))]. *)
Definition dump (name : string) (obj : artifact estimator) : M state unit :=
  modify (fun s => set_fs (<[path_join (output_path s) name := obj]> (fs s)) s).

(** [pd.read_csv(self.input_path)]. *)
Definition read_csv (s : state) : exn + dataframe :=
  match fs s !! input_path s with
  | None => inl (FileNotFoundError (input_path s))
  | Some (ACsv d) => inr d
  | Some _ => inl (LibError "ParserError" "Error tokenizing data")
  end.

Definition load_data : M state unit :=
  try_except
    (d ← (fun s => lift (read_csv s) s);
     modify (set_df (Some d)))
    (fun e => raise (CustomException "Failed to load data" e)).

(** The guard at the head of [preprocess] and of
    [split_and_scale_and_save]. *)
Definition require_df : M state dataframe :=
  o ← gets df;
  match o with
  | None => raise (ValueError "Dataframe is not loaded. Call `load_data()` first.")
  | Some d => mret d
  end.

(** One in-place statement on [self.df]; nothing is written when the
    statement raises. *)
Definition update_df (f : dataframe → exn + dataframe) : M state unit :=
  o ← gets df;
  match o with
  | None => raise (LibError "TypeError" "'NoneType' object is not subscriptable")
  | Some d => d' ← lift (f d); modify (set_df (Some d'))
  end.

(** [col.dt.<field>]: the accessor exists on datetime columns only; NaT
    gives NaN. *)
Fixpoint dt (f : datetime → Z) (c : list val) : exn + list val :=
  match c with
  | [] => inr []
  | VTime t :: c' =>
      r ← dt f c'; mret (VNum ((fun d => inject_Z (f d)) <$> t) :: r)
  | _ :: _ =>
      inl (LibError "AttributeError" "Can only use .dt accessor with datetimelike values")
  end.

(** The labels of a column that the encoder sorts: its text values, and
    its numbers (each in lowest terms, so that equal numbers are one
    label). *)
Definition texts (c : list val) : list string :=
  omap (fun v => match v with VStr s => Some s | _ => None end) c.

Definition numbers (c : list val) : list Q :=
  omap (fun v => match v with VNum (Some q) => Some (Qred q) | _ => None end) c.

(** The code of one value: its position among the sorted classes, the
    missing value (NaN) being the last class. *)
Definition code_of (ts : list string) (ns : list Q) (v : val) : option nat :=
  match v with
  | VStr s => LabelEncoder.index_of ts s
  | VNum (Some q) => fst <$> list_find (fun x => x = Qred q) ns
  | VNum None => Some (length ts + length ns)%nat
  | VTime _ => None
  end.

(** [le.fit_transform(col)] on a column of the frame.  On a text column
    it is [LabelEncoder.fit_transform].  A column as [read_csv] yields it
    may also hold missing values or be numeric: the encoder sorts the
    text labels, or the numbers, and puts the missing value last; text
    mixed with numbers cannot be sorted and raises [TypeError] (message
    abridged).  Timestamps do not occur in the columns [preprocess]
    encodes. *)
Definition encode (c : list val) : exn + list val :=
  let unsortable :=
    LibError "TypeError" "Encoders require their input argument must be uniformly strings or numbers" in
  match as_strings c with
  | None =>
      match texts c, numbers c with
      | _ :: _, _ :: _ => inl unsortable
      | ts, ns =>
          match mapM (code_of (LabelEncoder.classes_ ts)
                              (merge_sort (fun x y : Q => Qle_bool x y) (remove_dups ns))) c with
          | None => inl unsortable
          | Some codes => inr (List.map (fun k => VNum (Some (inject_Z (Z.of_nat k)))) codes)
          end
      end
  | Some y =>
      match LabelEncoder.fit_transform y with
      | inl e => inl e
      | inr codes => inr (List.map (fun k => VNum (Some (inject_Z k))) codes)
      end
  end.

Definition derive (name : string) (f : datetime → Z) : M state unit :=
  update_df (fun d => c ← get_col d "Timestamp"; r ← dt f c; mret (set_col d name r)).

Definition preprocess_body : M state unit :=
  _ ← require_df;
  _ ← update_df (fun d =>
         c ← get_col d "Timestamp";
         mret (set_col d "Timestamp" ((fun v => VTime (to_datetime v)) <$> c)));
  _ ← update_df (fun d => c ← get_col d "Operation_Mode"; mret (set_col d "Operation_Mode" c));
  _ ← update_df (fun d => c ← get_col d "Efficiency_Status"; mret (set_col d "Efficiency_Status" c));
  _ ← derive "Year" year;
  _ ← derive "Month" month;
  _ ← derive "Day" day;
  _ ← derive "Hour" hour;
  _ ← update_df (fun d => drop d ["Timestamp"; "Machine_ID"]);
  _ ← update_df (fun d => c ← get_col d "Efficiency_Status"; r ← encode c; mret (set_col d "Efficiency_Status" r));
  update_df (fun d => c ← get_col d "Operation_Mode"; r ← encode c; mret (set_col d "Operation_Mode" r)).

Definition preprocess : M state unit :=
  try_except preprocess_body
    (fun e => raise (CustomException "Failed to preprocess data" e)).

Definition FEATURES : list string :=
  [ "Operation_Mode"; "Temperature_C"; "Vibration_Hz"; "Power_Consumption_kW";
    "Network_Latency_ms"; "Packet_Loss_%"; "Quality_Control_Defect_Rate_%";
    "Production_Speed_units_per_hr"; "Predictive_Maintenance_Score";
    "Error_Rate_%"; "Year"; "Month"; "Day"; "Hour" ].

Definition split_and_scale_and_save_body : M state unit :=
  d ← require_df;
  _ ← modify (set_features (Some FEATURES));
  Xc ← lift (select d FEATURES);
  y ← lift (get_col d "Efficiency_Status");
  fitted ← lift (X ← to_matrix (nrows d) Xc;
                 StandardScaler.fit_transform (length FEATURES) X);
  parts ← lift (train_test_split fitted.2 y 0.2%Q 42 (Some y));
  let '(X_train, X_test, y_train, y_test) := parts in
  _ ← dump "X_train.pkl" (AArray X_train);
  _ ← dump "X_test.pkl" (AArray X_test);
  _ ← dump "y_train.pkl" (ASeries y_train);
  _ ← dump "y_test.pkl" (ASeries y_test);
  dump "scaler.pkl" (AScaler fitted.1).

Definition split_and_scale_and_save : M state unit :=
  try_except split_and_scale_and_save_body
    (fun e => raise (CustomException "Failed to split, scale, and save data" e)).

Definition run : M state unit :=
  _ ← load_data;
  _ ← preprocess;
  split_and_scale_and_save.

End DataProcessing.
End DataProcessing.

(** ** src/model_training.py *)

Module ModelTraining.
Section ModelTraining.
Context `{Metrics}.

Record state : Type := mk_state
  { processed_path : string;
    model_path : string;
    clf : option estimator;
    X_train : option (artifact estimator);
    X_test : option (artifact estimator);
    y_train : option (artifact estimator);
    y_test : option (artifact estimator);
    fs : gmap string (artifact estimator);
    log : list (string * Q) }.

Definition set_clf (c : option estimator) (s : state) : state :=
  mk_state (processed_path s) (model_path s) c (X_train s) (X_test s)
           (y_train s) (y_test s) (fs s) (log s).
Definition set_X_train (a : option (artifact estimator)) (s : state) : state :=
  mk_state (processed_path s) (model_path s) (clf s) a (X_test s)
           (y_train s) (y_test s) (fs s) (log s).
Definition set_X_test (a : option (artifact estimator)) (s : state) : state :=
  mk_state (processed_path s) (model_path s) (clf s) (X_train s) a
           (y_train s) (y_test s) (fs s) (log s).
Definition set_y_train (a : option (artifact estimator)) (s : state) : state :=
  mk_state (processed_path s) (model_path s) (clf s) (X_train s) (X_test s)
           a (y_test s) (fs s) (log s).
Definition set_y_test (a : option (artifact estimator)) (s : state) : state :=
  mk_state (processed_path s) (model_path s) (clf s) (X_train s) (X_test s)
           (y_train s) a (fs s) (log s).
Definition set_fs (m : gmap string (artifact estimator)) (s : state) : state :=
  mk_state (processed_path s) (model_path s) (clf s) (X_train s) (X_test s)
           (y_train s) (y_test s) m (log s).
Definition add_log (entry : string * Q) (s : state) : state :=
  mk_state (processed_path s) (model_path s) (clf s) (X_train s) (X_test s)
           (y_train s) (y_test s) (fs s) (log s ++ [entry])%list.

(** [__init__]. *)
Definition init (processed model : string) (files : gmap string (artifact estimator))
  : state :=
  mk_state processed model None None None None None files [].

(** [joblib.load(os.path.join(self.processed_path, name))]. *)
Definition load (name : string) : M state (artifact estimator) :=
  s ← gets id;
  match fs s !! path_join (processed_path s) name with
  | None => raise (FileNotFoundError (path_join (processed_path s) name))
  | Some a => mret a
  end.

(** [obj.shape], read for the log line that closes [load_data]. *)
Definition shape (a : option (artifact estimator)) : exn + unit :=
  match a with
  | Some (ACsv _) | Some (AArray _) | Some (ASeries _) => inr tt
  | _ => inl (LibError "AttributeError" "object has no attribute 'shape'")
  end.

Definition load_data : M state unit :=
  try_except
    (a ← load "X_train.pkl"; _ ← modify (set_X_train (Some a));
     a ← load "X_test.pkl"; _ ← modify (set_X_test (Some a));
     a ← load "y_train.pkl"; _ ← modify (set_y_train (Some a));
     a ← load "y_test.pkl"; _ ← modify (set_y_test (Some a));
     s ← gets id;
     _ ← lift (shape (X_train s));
     lift (shape (X_test s)))
    (fun e => raise (CustomException "Failed to load processed data" e)).

(** [train_model]: the estimator is built and assigned to [self.clf]
    before [fit] is called; the fitted estimator is dumped right after
    [fit]. *)
Definition train_model : M state unit :=
  try_except
    (_ ← modify (set_clf (Some (LogisticRegression 42 1000)));
     s ← gets id;
     fitted ← lift (estimator_fit (LogisticRegression 42 1000) (X_train s) (y_train s));
     _ ← modify (set_clf (Some fitted));
     modify (fun s =>
       set_fs (<[path_join (model_path s) "model.pkl" := AEstimator fitted]> (fs s)) s))
    (fun e => raise (CustomException "Failed to train model" e)).

(** [evaluate_model]: predictions on the test partition and the four
    scores, which are logged and nothing else. *)
Definition evaluate_model : M state unit :=
  try_except
    (o ← gets clf;
     match o with
     | None => raise (ValueError "Model not trained. Call `train_model()` before evaluation.")
     | Some c =>
         s ← gets id;
         y_pred ← lift (estimator_predict c (X_test s));
         accuracy ← lift (accuracy_score (y_test s) y_pred);
         precision ← lift (precision_score (y_test s) y_pred "weighted");
         recall ← lift (recall_score (y_test s) y_pred "weighted");
         f1 ← lift (f1_score (y_test s) y_pred "weighted");
         _ ← modify (add_log ("Accuracy", accuracy));
         _ ← modify (add_log ("Precision", precision));
         _ ← modify (add_log ("Recall", recall));
         modify (add_log ("F1 Score", f1))
     end)
    (fun e => raise (CustomException "Failed to evaluate model" e)).

Definition run : M state unit :=
  _ ← load_data;
  _ ← train_model;
  evaluate_model.

End ModelTraining.
End ModelTraining.

(** ** app.py *)

(** Python's [float]: parsing ([None] is the [ValueError] of [float(s)]),
    conversion from [int], the value of a decimal literal of the source,
    [str(x)], and [repr] of a string (for the parse error's message). *)
Class PyFloat : Type :=
  { float : Type;
    float_of_str : string → option float;
    float_of_int : Z → float;
    float_of_Q : Q → float;
    str_of_float : float → string;
    py_repr : string → string }.

(** [float(str(v))] succeeds for every [float] and [int] value [v]. *)
Class PyFloatLaws `{PyFloat} : Prop :=
  { float_of_str_float : ∀ x : float, is_Some (float_of_str (str_of_float x));
    float_of_str_int : ∀ n : Z, is_Some (float_of_str (str_of_int n)) }.

(** The unpickled scaler and model, as the handler uses them:
    [scaler.transform(input_array)] on the one-row array and
    [int(model.predict(scaled_array)[0])]. *)
Class ServingArtifacts `{PyFloat} : Type :=
  { scaler_transform : list float → exn + list float;
    model_predict : list float → exn + Z }.

Module App.
Section App.
Context `{ServingArtifacts}.

Inductive pyval : Type :=
  | PInt (n : Z)
  | PFloat (x : float)
  | PStr (s : string)
  | PBool (b : bool).

(** [str(v)]. *)
Definition py_str (v : pyval) : string :=
  match v with
  | PInt n => str_of_int n
  | PFloat x => str_of_float x
  | PStr s => s
  | PBool true => "True"
  | PBool false => "False"
  end.

Definition FEATURES : list string :=
  [ "Operation_Mode"; "Temperature_C"; "Vibration_Hz"; "Power_Consumption_kW";
    "Network_Latency_ms"; "Packet_Loss_%"; "Quality_Control_Defect_Rate_%";
    "Production_Speed_units_per_hr"; "Predictive_Maintenance_Score";
    "Error_Rate_%"; "Year"; "Month"; "Day"; "Hour" ].

Definition LABELS : list (Z * string) :=
  [ (0, "High"); (1, "Low"); (2, "Medium") ].

Definition OPERATION_MODE_MAP : list (string * Z) :=
  [ ("Idle", 0); ("Active", 1); ("Maintenance", 2) ].

(** [list(OPERATION_MODE_MAP.keys())]: the keys in insertion order. *)
Definition OPERATION_MODE_CHOICES : list string := fst <$> OPERATION_MODE_MAP.

(** [d.get(k)] on a dict written as its items. *)
Fixpoint dict_get {K V} `{EqDecision K} (d : list (K * V)) (k : K) : option V :=
  match d with
  | [] => None
  | (k', v) :: d' => if decide (k' = k) then Some v else dict_get d' k
  end.

(** [datetime.now()] at import time. *)
Record clock : Type := mk_clock
  { now_year : Z; now_month : Z; now_day : Z; now_hour : Z }.

(** The module-level dict [DEFAULTS_FALLBACK] as first built. *)
Definition DEFAULTS_FALLBACK (now : clock) : gmap string pyval :=
  list_to_map
    [ ("Operation_Mode", PStr "Active");
      ("Temperature_C", PFloat (float_of_Q 65.0));
      ("Vibration_Hz", PFloat (float_of_Q 50.0));
      ("Power_Consumption_kW", PFloat (float_of_Q 35.0));
      ("Network_Latency_ms", PFloat (float_of_Q 15.0));
      ("Packet_Loss_%", PFloat (float_of_Q 0.5));
      ("Quality_Control_Defect_Rate_%", PFloat (float_of_Q 1.0));
      ("Production_Speed_units_per_hr", PFloat (float_of_Q 120.0));
      ("Predictive_Maintenance_Score", PFloat (float_of_Q 55.0));
      ("Error_Rate_%", PFloat (float_of_Q 0.8));
      ("Year", PInt (now_year now));
      ("Month", PInt (now_month now));
      ("Day", PInt (now_day now));
      ("Hour", PInt (Z.min (now_hour now) 23)) ].

(** The optional [feature_means.json]: absent, unreadable or malformed
    (any exception while reading it), or a JSON object, given by its
    members in the order of the text (a name may be repeated). *)
Inductive json : Type :=
  | JInt (n : Z)
  | JFloat (x : float)
  | JBool (b : bool)
  | JOther.

Inductive means_file : Type :=
  | NoFile
  | Malformed
  | Means (members : list (string * json)).

(** [d[k] = v] on a dict written as its items: the value of a key already
    present is replaced where it stands, a new key is appended. *)
Fixpoint dict_set {K V} `{EqDecision K} (d : list (K * V)) (k : K) (v : V) : list (K * V) :=
  match d with
  | [] => [(k, v)]
  | (k', v') :: d' =>
      if decide (k' = k) then (k, v) :: d' else (k', v') :: dict_set d' k v
  end.

(** [json.load] on an object: the dict is filled member by member, so a
    repeated name keeps the value of its last member, whatever its type. *)
Definition json_load (members : list (string * json)) : list (string * json) :=
  foldl (fun d kv => dict_set d kv.1 kv.2) [] members.

(** [isinstance(v, (int, float))]; a JSON boolean is an [int]. *)
Definition numeric (v : json) : option pyval :=
  match v with
  | JInt n => Some (PInt n)
  | JFloat x => Some (PFloat x)
  | JBool b => Some (PBool b)
  | JOther => None
  end.

(** What [form_values] refers to: the module-level dict itself, or the
    fresh copy built by the merge. *)
Inductive fv_ref : Type :=
  | Alias
  | Fresh (m : gmap string pyval).

Definition merge_item (merged : gmap string pyval) (kv : string * json)
  : gmap string pyval :=
  match merged !! kv.1, numeric kv.2 with
  | Some _, Some v => <[kv.1 := v]> merged
  | _, _ => merged
  end.

(** [load_feature_means()]: returns [DEFAULTS_FALLBACK] itself unless the
    means file is present and well formed; then the items of the loaded
    dict are merged, one after the other, into a copy. *)
Definition load_feature_means (G : gmap string pyval) (file : means_file) : fv_ref :=
  match file with
  | NoFile | Malformed => Alias
  | Means members => Fresh (foldl merge_item G (json_load members))
  end.

(** State of one request: the module-level dict and the local
    [form_values]. *)
Record hstate : Type := mk_hstate
  { globals : gmap string pyval; form_values : fv_ref }.

(** [form_values[k] = v]. *)
Definition write_fv (k : string) (v : pyval) : M hstate unit :=
  modify (fun h =>
    match form_values h with
    | Alias => mk_hstate (<[k := v]> (globals h)) Alias
    | Fresh m => mk_hstate (globals h) (Fresh (<[k := v]> m))
    end).

(** The dict that [form_values] denotes. *)
Definition deref (h : hstate) : gmap string pyval :=
  match form_values h with
  | Alias => globals h
  | Fresh m => m
  end.

(** [request.form.get(k, default)]: the first value submitted under [k]. *)
Definition form_get (form : list (string * string)) (k default : string) : string :=
  from_option id default (dict_get form k).

(** One iteration of the loop over [FEATURES]. *)
Definition step (form : list (string * string)) (values : list float) (feat : string)
  : M hstate (list float) :=
  if decide (feat = "Operation_Mode") then
    match OPERATION_MODE_CHOICES !! 0%nat with
    | None => raise (LibError "IndexError" "list index out of range")
    | Some first =>
        let mode_label := form_get form "Operation_Mode" first in
        match dict_get OPERATION_MODE_MAP mode_label with
        | None => raise (ValueError ("Unknown Operation_Mode '" ++ mode_label ++ "'."))
        | Some mode_code =>
            _ ← write_fv "Operation_Mode" (PStr mode_label);
            mret (values ++ [float_of_int mode_code])%list
        end
    end
  else
    G ← gets globals;
    let raw_val :=
      form_get form feat (py_str (from_option id (PFloat (float_of_Q 0.0)) (G !! feat))) in
    match float_of_str raw_val with
    | None => raise (ValueError ("could not convert string to float: " ++ py_repr raw_val))
    | Some val =>
        _ ← write_fv feat (PFloat val);
        mret (values ++ [val])%list
    end.

(** [for feat in feats: ...], building [values]. *)
Fixpoint build (form : list (string * string)) (feats : list string) (values : list float)
  : M hstate (list float) :=
  match feats with
  | [] => mret values
  | feat :: feats' => values' ← step form values feat; build form feats' values'
  end.

(** [LABELS.get(pred_idx, f"Unknown ({pred_idx})")]. *)
Definition label_of (pred_idx : Z) : string :=
  from_option id ("Unknown (" ++ str_of_int pred_idx ++ ")") (dict_get LABELS pred_idx).

(** The body of the [try] block. *)
Definition predict_body (form : list (string * string)) : M hstate string :=
  values ← build form FEATURES [];
  scaled_array ← lift (scaler_transform values);
  pred_idx ← lift (model_predict scaled_array);
  mret (label_of pred_idx).

Inductive method : Type := GET | POST.

Record request : Type := mk_request
  { req_method : method; req_form : list (string * string) }.

(** The keyword arguments given to [render_template]. *)
Record response : Type := mk_response
  { prediction : option string;
    features : list string;
    defaults : gmap string pyval;
    op_modes : list string }.

Definition handler (req : request) : M hstate response :=
  prediction ←
    match req_method req with
    | POST =>
        try_except
          (label ← predict_body (req_form req); mret (Some label))
          (fun e => mret (Some ("Error: " ++ exn_str e)))
    | GET => mret None
    end;
  h ← gets id;
  mret (mk_response prediction FEATURES (deref h) OPERATION_MODE_CHOICES).

(** The view function [index], over the module-level dict. *)
Definition index (req : request) (file : means_file)
  : M (gmap string pyval) response :=
  fun G =>
    let r := handler req (mk_hstate G (load_feature_means G file)) in
    (r.1, globals r.2).

End App.
End App.

(** ** Derived notions used in the statements about the handler *)

Module AppSpec.
Section AppSpec.
Context `{ServingArtifacts}.
Import App.

(** The two errors that [step] raises. *)
Definition unknown_mode (label : string) : exn :=
  ValueError ("Unknown Operation_Mode '" ++ label ++ "'.").
Definition float_error (raw : string) : exn :=
  ValueError ("could not convert string to float: " ++ py_repr raw).

(** The value that one iteration appends, as a function of the form and
    of the module-level dict at the start of the iteration. *)
Definition value_of (form : list (string * string)) (G : gmap string pyval)
    (feat : string) : exn + float :=
  if decide (feat = "Operation_Mode") then
    let mode_label := form_get form "Operation_Mode" "Idle" in
    match dict_get OPERATION_MODE_MAP mode_label with
    | None => inl (unknown_mode mode_label)
    | Some mode_code => inr (float_of_int mode_code)
    end
  else
    let raw_val :=
      form_get form feat (py_str (from_option id (PFloat (float_of_Q 0.0)) (G !! feat))) in
    match float_of_str raw_val with
    | None => inl (float_error raw_val)
    | Some val => inr val
    end.

(** The entry that the iteration writes into [form_values]. *)
Definition entry_of (form : list (string * string)) (feat : string) (v : float) : pyval :=
  if decide (feat = "Operation_Mode")
  then PStr (form_get form "Operation_Mode" "Idle")
  else PFloat v.

Fixpoint collect (form : list (string * string)) (G : gmap string pyval)
    (feats : list string) : exn + list float :=
  match feats with
  | [] => inr []
  | feat :: feats' =>
      match value_of form G feat with
      | inl e => inl e
      | inr v =>
          match collect form G feats' with
          | inl e => inl e
          | inr vs => inr (v :: vs)
          end
      end
  end.

Definition is_number (v : pyval) : Prop :=
  match v with
  | PInt _ | PFloat _ => True
  | PStr _ | PBool _ => False
  end.

(** Every entry of the module-level dict other than the operation mode
    is a number. *)
Definition numeric_defaults (G : gmap string pyval) : Prop :=
  ∀ k v, k ≠ "Operation_Mode" → G !! k = Some v → is_number v.

(** The module-level dicts that a serving process can hold: the one built
    at import, and the one left by any request. *)
Inductive reachable (now : clock) : gmap string pyval → Prop :=
  | reach_init : reachable now (DEFAULTS_FALLBACK now)
  | reach_request (G : gmap string pyval) (req : request) (file : means_file) :
      reachable now G → reachable now (index req file G).2.

End AppSpec.
End AppSpec.

(** ** Reference instances of the library capabilities

    Small executable stand-ins for the libraries, used to run the pipeline
    and the handler on concrete data. *)

Module Reference.

(** Square root on perfect squares of integers, integer square root of the
    floor otherwise. *)
#[export] Instance numeric : Numeric :=
  {| sqrtQ := fun q => inject_Z (Z.sqrt (Qfloor q)) |}.

Definition digit (a : ascii) : option Z :=
  let n := Z.of_N (N_of_ascii a) in
  if decide (48 <= n <= 57) then Some (n - 48) else None.

Definition two_digits (a b : ascii) : option Z :=
  x ← digit a; y ← digit b; Some (10 * x + y).

(** Timestamps of the form [YYYY-MM-DD HH...]; anything else is NaT. *)
Definition parse_timestamp (s : string) : option datetime :=
  match s with
  | String y1 (String y2 (String y3 (String y4 (String "-" (String m1 (String m2
      (String "-" (String d1 (String d2 (String _ (String h1 (String h2 _)))))))))))) =>
      yh ← two_digits y1 y2; yl ← two_digits y3 y4;
      mo ← two_digits m1 m2; dd ← two_digits d1 d2; hh ← two_digits h1 h2;
      if decide (1 <= mo <= 12 ∧ 1 <= dd <= 31 ∧ hh <= 23)
      then Some (mk_datetime (100 * yh + yl) mo dd hh) else None
  | _ => None
  end.

#[export] Instance pandas : Pandas :=
  {| to_datetime := fun v =>
       match v with
       | VStr s => parse_timestamp s
       | VTime t => t
       | VNum _ => None
       end;
     index_str := fun names => "Index(" ++ repr_names names ++ ", dtype='object')" |}.

(** A splitter that sends every fifth row to the test partition. *)
Fixpoint every_fifth {A} (k : nat) (l : list A) : list A * list A :=
  match l with
  | [] => ([], [])
  | x :: l' =>
      let '(tr, te) := every_fifth (match k with O => 4%nat | S k' => k' end) l' in
      match k with
      | O => (tr, x :: te)
      | S _ => (x :: tr, te)
      end
  end.

#[export] Instance model_selection : ModelSelection :=
  {| train_test_split := fun X y _ _ _ =>
       if decide (length X = length y) then
         let '(X_train, X_test) := every_fifth 4 X in
         let '(y_train, y_test) := every_fifth 4 y in
         inr (X_train, X_test, y_train, y_test)
       else inl (ValueError "Found input variables with inconsistent numbers of samples") |}.

(** A classifier that predicts the first training label for every row and
    validates its inputs. *)
#[export] Instance classifier : Classifier :=
  {| estimator := option val;
     LogisticRegression := fun _ _ => None;
     estimator_fit := fun _ X y =>
       match X, y with
       | Some (AArray (_ :: _)), Some (ASeries (l :: _)) => inr (Some l)
       | _, _ => inl (ValueError "This LogisticRegression estimator requires X and y to be passed")
       end;
     estimator_predict := fun e X =>
       match e, X with
       | None, _ => inl (LibError "NotFittedError" "This LogisticRegression instance is not fitted yet")
       | Some l, Some (AArray rows) => inr ((fun _ => l) <$> rows)
       | Some _, _ => inl (ValueError "Expected 2D array")
       end |}.

Definition val_eqb (a b : val) : bool :=
  match a, b with
  | VStr s, VStr t => bool_decide (s = t)
  | VNum (Some x), VNum (Some y) => Qeq_bool x y
  | _, _ => false
  end.

(** Fraction of positions where prediction and truth agree. *)
Definition agreement (y_true : option (artifact (option val))) (y_pred : list val)
  : exn + Q :=
  match y_true with
  | Some (ASeries y) =>
      if decide (length y = length y_pred ∧ y ≠ []) then
        inr (inject_Z (Z.of_nat (length (filter (fun p => val_eqb p.1 p.2 = true) (zip y y_pred))))
             / inject_Z (Z.of_nat (length y)))%Q
      else inl (ValueError "Found input variables with inconsistent numbers of samples")
  | _ => inl (LibError "TypeError" "Expected sequence or array-like")
  end.

#[export] Instance metrics : Metrics :=
  {| accuracy_score := agreement;
     precision_score := fun y p _ => agreement y p;
     recall_score := fun y p _ => agreement y p;
     f1_score := fun y p _ => agreement y p |}.

(** Integer-valued floats: decimal integers parse, literals are rounded
    down, and [str] prints the integer. *)
#[export] Instance int_float : PyFloat :=
  {| float := Z;
     float_of_str := fun s => Z.of_int <$> NilZero.int_of_string s;
     float_of_int := fun n => n;
     float_of_Q := Qfloor;
     str_of_float := str_of_int;
     py_repr := fun s => "'" ++ s ++ "'" |}.

(** An identity scaler on 14 features and a model that answers the
    operation-mode code. *)
#[export] Instance serving : ServingArtifacts :=
  {| scaler_transform := fun v =>
       if decide (length v = 14%nat) then inr v
       else inl (ValueError "X has a different number of features than StandardScaler is expecting");
     model_predict := fun v =>
       match v with
       | x :: _ => inr x
       | [] => inl (ValueError "Found array with 0 feature(s)")
       end |}.

Definition sample_clock : App.clock := App.mk_clock 2024 1 15 10.

(** Sample data. *)

Definition nums (l : list Z) : list val :=
  (fun z => VNum (Some (inject_Z z))) <$> l.

(** A raw frame of two records; the second timestamp does not parse. *)
Definition sample_raw : dataframe :=
  mk_dataframe 2
    (list_to_map
       [ ("Timestamp", [VStr "2024-01-15 10:00:00"; VStr "not a date"]);
         ("Machine_ID", nums [1; 2]);
         ("Operation_Mode", [VStr "Idle"; VStr "Active"]);
         ("Temperature_C", nums [65; 70]);
         ("Efficiency_Status", [VStr "Low"; VStr "High"]) ]).

(** A processed frame of five records. *)
Definition sample_Xc : list (list val) :=
  [ nums [1; 0; 2; 1; 0]; nums [65; 70; 61; 80; 72]; nums [50; 50; 50; 50; 50];
    nums [35; 30; 41; 38; 36]; nums [15; 12; 19; 14; 20]; nums [0; 1; 0; 2; 1];
    nums [1; 1; 2; 3; 1]; nums [120; 110; 130; 90; 100]; nums [55; 60; 40; 70; 65];
    nums [0; 1; 1; 2; 0]; nums [2024; 2024; 2024; 2024; 2024]; nums [1; 1; 2; 2; 3];
    nums [15; 16; 1; 2; 3]; nums [10; 11; 12; 13; 14] ].

Definition sample_y : list val := nums [0; 1; 2; 1; 0].

Definition sample_processed : dataframe :=
  mk_dataframe 5
    (list_to_map (zip App.FEATURES sample_Xc ++ [("Efficiency_Status", sample_y)])).

Definition sample_X : matrix :=
  match to_matrix 5 sample_Xc with
  | inr X => X
  | inl _ => []
  end.

(** The files left by data processing, as the training stage finds them. *)
Definition sample_files : gmap string (artifact (option val)) :=
  list_to_map
    [ ("artifacts/processed/X_train.pkl", AArray [[Some 1%Q]; [Some 2%Q]]);
      ("artifacts/processed/X_test.pkl", AArray [[Some 3%Q]]);
      ("artifacts/processed/y_train.pkl", ASeries (nums [0; 1]));
      ("artifacts/processed/y_test.pkl", ASeries (nums [0])) ].

(** The labels of a training column in which ["Idle"] comes first. *)
Definition sample_modes : list string := ["Idle"; "Active"; "Maintenance"; "Idle"].

(** A submission with every field but [Temperature_C]. *)
Definition sample_form : list (string * string) :=
  [ ("Operation_Mode", "Active"); ("Vibration_Hz", "50"); ("Power_Consumption_kW", "35");
    ("Network_Latency_ms", "15"); ("Packet_Loss_%", "1"); ("Quality_Control_Defect_Rate_%", "1");
    ("Production_Speed_units_per_hr", "120"); ("Predictive_Maintenance_Score", "55");
    ("Error_Rate_%", "1"); ("Year", "2024"); ("Month", "1"); ("Day", "15"); ("Hour", "10") ].

(** Fresh pipeline objects, and data-processing objects holding the sample
    frames. *)
Definition fresh_processing : DataProcessing.state :=
  DataProcessing.init "artifacts/raw/data.csv" "artifacts/processed" ∅.
Definition fresh_training : ModelTraining.state :=
  ModelTraining.init "artifacts/processed/" "artifacts/models/" ∅.
Definition loaded_processing : DataProcessing.state :=
  DataProcessing.mk_state "artifacts/raw/data.csv" "artifacts/processed"
    (Some sample_raw) None ∅.
Definition processed_processing : DataProcessing.state :=
  DataProcessing.mk_state "artifacts/raw/data.csv" "artifacts/processed"
    (Some sample_processed) None ∅.
Definition ready_training : ModelTraining.state :=
  ModelTraining.init "artifacts/processed/" "artifacts/models/" sample_files.

End Reference.

(** The file names under which [split_and_scale_and_save] dumps its
    results. *)
Definition artefact_names : list string :=
  ["X_train.pkl"; "X_test.pkl"; "y_train.pkl"; "y_test.pkl"; "scaler.pkl"].

(** Further sample data and one more stand-in for the served model. *)
Module MoreSamples.
Import Reference.

(** A processed frame with every column and no record. *)
Definition empty_processed : dataframe :=
  mk_dataframe 0
    (list_to_map (zip App.FEATURES (replicate 14 []) ++ [("Efficiency_Status", [])])).

Definition empty_processing : DataProcessing.state :=
  DataProcessing.mk_state "artifacts/raw/data.csv" "artifacts/processed"
    (Some empty_processed) None ∅.

(** A training object that finds [X_train.pkl] and nothing else. *)
Definition partial_training : ModelTraining.state :=
  ModelTraining.init "artifacts/processed/" "artifacts/models/"
    {[ "artifacts/processed/X_train.pkl" := AArray [[Some 1%Q]; [Some 2%Q]] ]}.

(** An identity scaler with a model that answers the hour, which is no
    class index of [LABELS] from 3 o'clock on. *)
Definition hour_model : @ServingArtifacts int_float :=
  {| scaler_transform := fun v => inr v;
     model_predict := fun v =>
       match v !! 13%nat with
       | Some x => inr x
       | None => inl (ValueError "X has a different number of features than the model is expecting")
       end |}.

(** Two submissions: one that gives a temperature, one that gives nothing. *)
Definition form_with_temperature : list (string * string) := [("Temperature_C", "70")].
Definition form_with_bad_year : list (string * string) := [("Year", "abc")].

End MoreSamples.

(** A classifier whose [fit] does not validate its input (it answers a
    constant model for any data, absent data included), and two pipeline
    objects on which nothing was loaded. *)
Module Trusting.

Definition classifier : Classifier :=
  {| estimator := bool;
     LogisticRegression := fun _ _ => false;
     estimator_fit := fun _ _ _ => inr true;
     estimator_predict := fun _ _ => inr [] |}.

Definition metrics : @Metrics classifier :=
  {| accuracy_score := fun _ _ => inr 1%Q;
     precision_score := fun _ _ _ => inr 1%Q;
     recall_score := fun _ _ _ => inr 1%Q;
     f1_score := fun _ _ _ => inr 1%Q |}.

Definition fresh_processing : @DataProcessing.state classifier :=
  DataProcessing.init "artifacts/raw/data.csv" "artifacts/processed" ∅.

Definition fresh_training : @ModelTraining.state classifier :=
  ModelTraining.init "artifacts/processed/" "artifacts/models/" ∅.

End Trusting.

(** * Properties *)

(** ** The state-and-exception monad *)

Section MonadFacts.
Context {S : Type}.

Lemma bind_inr {A B} (c : M S A) (k : A → M S B) (s s' : S) (a : A) :
  c s = (inr a, s') → (c ≫= k) s = k a s'.
Proof. intros Hc. unfold mbind, M_bind, Py.bind. by rewrite Hc. Qed.

Lemma bind_inl {A B} (c : M S A) (k : A → M S B) (s s' : S) (e : exn) :
  c s = (inl e, s') → (c ≫= k) s = (inl e, s').
Proof. intros Hc. unfold mbind, M_bind, Py.bind. by rewrite Hc. Qed.

Lemma try_except_inr {A} (c : M S A) (h : exn → M S A) (s s' : S) (a : A) :
  c s = (inr a, s') → try_except c h s = (inr a, s').
Proof. intros Hc. unfold try_except. by rewrite Hc. Qed.

Lemma try_except_inl {A} (c : M S A) (h : exn → M S A) (s s' : S) (e : exn) :
  c s = (inl e, s') → try_except c h s = h e s'.
Proof. intros Hc. unfold try_except. by rewrite Hc. Qed.
End MonadFacts.

(** ** The label encoder *)

Section LabelEncoderFacts.
Import LabelEncoder.

Lemma classes_elem (y : list string) (l : string) : l ∈ classes_ y ↔ l ∈ y.
Proof.
  unfold classes_. rewrite merge_sort_Permutation. apply elem_of_remove_dups.
Qed.

Lemma classes_NoDup (y : list string) : NoDup (classes_ y).
Proof.
  unfold classes_. rewrite merge_sort_Permutation. apply NoDup_remove_dups.
Qed.

Lemma classes_Sorted (y : list string) : Sorted String.le (classes_ y).
Proof. apply (Sorted_merge_sort String.le). Qed.

Lemma classes_ext (y y' : list string) :
  (∀ l, l ∈ y ↔ l ∈ y') → classes_ y = classes_ y'.
Proof.
  intros Hyy'.
  apply (Sorted_unique String.le); try apply classes_Sorted.
  apply NoDup_Permutation; try apply classes_NoDup.
  intros l. rewrite !classes_elem. apply Hyy'.
Qed.

Lemma index_of_Some (cs : list string) (l : string) (k : nat) :
  index_of cs l = Some k → cs !! k = Some l.
Proof.
  revert k. induction cs as [|c cs IH]; intros k; simpl; [done|].
  case_decide as Hc.
  - intros [= <-]. by subst.
  - destruct (index_of cs l) as [k'|] eqn:Hk; simpl; [|done].
    intros [= <-]. simpl. by apply IH.
Qed.

Lemma index_of_elem (cs : list string) (l : string) :
  l ∈ cs → is_Some (index_of cs l).
Proof.
  induction cs as [|c cs IH]; [by intros ?%elem_of_nil|].
  intros Hl. simpl. case_decide as Hc; [by eexists|].
  apply elem_of_cons in Hl as [->|Hl]; [done|].
  destruct (IH Hl) as [k ->]. by eexists.
Qed.

Lemma index_of_lookup_NoDup (cs : list string) (l : string) (k : nat) :
  NoDup cs → cs !! k = Some l → index_of cs l = Some k.
Proof.
  intros Hnd Hk.
  destruct (index_of_elem cs l) as [k' Hk'].
  { apply list_elem_of_lookup. eauto. }
  rewrite Hk'. f_equal.
  apply index_of_Some in Hk'.
  eapply NoDup_lookup; eauto.
Qed.

Lemma transform_total (cs y : list string) :
  (∀ l, l ∈ y → l ∈ cs) →
  ∃ codes, transform cs y = inr codes
    ∧ length codes = length y
    ∧ ∀ i l, y !! i = Some l →
        ∃ k, codes !! i = Some (Z.of_nat k) ∧ index_of cs l = Some k.
Proof.
  induction y as [|a y IH]; intros Hsub.
  - exists []. repeat split; [done..|]. intros i l. by rewrite lookup_nil.
  - destruct IH as (codes & Ht & Hlen & Hcodes).
    { intros l Hl. apply Hsub. by right. }
    destruct (index_of_elem cs a) as [k Hk]; [apply Hsub; by left|].
    exists (Z.of_nat k :: codes). simpl. rewrite Hk, Ht.
    repeat split; [by rewrite Hlen|].
    intros [|i] l; simpl; [intros [= <-]; eauto|]. apply Hcodes.
Qed.
(** A text column of the frame is read back as its strings. *)
Lemma as_strings_VStr (y : list string) : as_strings (VStr <$> y) = Some y.
Proof.
  induction y as [|l y IH]; [done|]. rewrite fmap_cons. cbn [as_strings].
  by rewrite IH.
Qed.
End LabelEncoderFacts.

(** C1 (as amended).  For every training column, the encoder's classes are
    the distinct labels of the column in ascending lexicographic order; the
    code of a label is its position in that order, so the codes are the
    dense integers [0 .. k-1], each one used; and the classes depend only on
    which labels occur, not on the order in which they are met.  The frame
    column is encoded with these codes. *)
Theorem label_codes_sorted_dense (y : list string) :
  let cs := LabelEncoder.classes_ y in
  Sorted String.le cs ∧ NoDup cs ∧ (∀ l, l ∈ cs ↔ l ∈ y)
  ∧ (∃ codes, LabelEncoder.fit_transform y = inr codes
       ∧ length codes = length y
       ∧ (∀ i l, y !! i = Some l →
            ∃ k, codes !! i = Some (Z.of_nat k) ∧ cs !! k = Some l)
       ∧ (∀ c, c ∈ codes → 0 <= c < Z.of_nat (length cs))
       ∧ (∀ k, (k < length cs)%nat → Z.of_nat k ∈ codes)
       ∧ DataProcessing.encode (VStr <$> y)
         = inr ((fun k => VNum (Some (inject_Z k))) <$> codes))
  ∧ (∀ y', (∀ l, l ∈ y ↔ l ∈ y') → LabelEncoder.classes_ y' = cs).
Proof.
  intros cs. split; [apply classes_Sorted|].
  split; [apply classes_NoDup|].
  split; [apply classes_elem|].
  split.
  - destruct (transform_total cs y) as (codes & Ht & Hlen & Hcodes).
    { intros l. apply classes_elem. }
    exists codes. split; [exact Ht|]. split; [exact Hlen|].
    split; [|split; [|split]].
    + intros i l Hi. destruct (Hcodes i l Hi) as (k & ? & ?%index_of_Some). eauto.
    + intros c [i Hi]%list_elem_of_lookup.
      destruct (lookup_lt_is_Some_2 y i) as [l Hl].
      { rewrite <-Hlen. eapply lookup_lt_Some, Hi. }
      destruct (Hcodes i l Hl) as (k & Hk & Hidx%index_of_Some).
      rewrite Hi in Hk. injection Hk as ->.
      apply lookup_lt_Some in Hidx. lia.
    + intros k Hk.
      destruct (lookup_lt_is_Some_2 cs k Hk) as [l Hl].
      assert (l ∈ y) as [i Hi]%list_elem_of_lookup.
      { apply classes_elem, list_elem_of_lookup. eauto. }
      destruct (Hcodes i l Hi) as (k' & Hk' & Hidx).
      rewrite (index_of_lookup_NoDup cs l k) in Hidx by (apply classes_NoDup || done).
      injection Hidx as <-. apply list_elem_of_lookup. eauto.
    + unfold DataProcessing.encode, LabelEncoder.fit_transform.
      rewrite as_strings_VStr. fold cs. by rewrite Ht.
  - intros y' Hy'. symmetry. by apply classes_ext.
Qed.

(** ** The scaler *)

Section ScalerFacts.
Context `{Numeric}.

(** Sum of values that are all equal to [c]. *)
Lemma Qsum_const (l : list Q) (c : Q) :
  Forall (fun q => q == c)%Q l → (Qsum l == inject_Z (Z.of_nat (length l)) * c)%Q.
Proof.
  induction 1 as [|q l Hq _ IH]; simpl Qsum; simpl length.
  - ring.
  - rewrite IH, Hq, Nat2Z.inj_succ. unfold Z.succ. rewrite inject_Z_plus. ring.
Qed.

Lemma Qsum_zero (l : list Q) :
  Forall (fun q => q == 0)%Q l → (Qsum l == 0)%Q.
Proof. intros Hl. rewrite (Qsum_const l 0 Hl). ring. Qed.

Lemma length_pos_inject {A} (l : list A) :
  l ≠ [] → ¬ (inject_Z (Z.of_nat (length l)) == 0)%Q.
Proof.
  intros Hl Heq. destruct l; [done|].
  unfold Qeq in Heq. simpl in Heq. lia.
Qed.

Lemma nanmean_const (l : list Q) (c : Q) :
  l ≠ [] → Forall (fun q => q == c)%Q l →
  ∃ m, nanmean l = Some m ∧ (m == c)%Q.
Proof.
  intros Hl Hc. destruct l as [|q l]; [done|].
  eexists; split; [reflexivity|].
  rewrite (Qsum_const _ c Hc). field. by apply length_pos_inject.
Qed.

Lemma nanvar_const (l : list Q) (c : Q) :
  l ≠ [] → Forall (fun q => q == c)%Q l →
  ∃ v, nanvar l = Some v ∧ (v == 0)%Q.
Proof.
  intros Hl Hc. unfold nanvar.
  destruct (nanmean_const l c Hl Hc) as (m & -> & Hm).
  apply nanmean_const.
  - by destruct l.
  - apply Forall_fmap. eapply Forall_impl; [exact Hc|].
    intros q Hq. simpl. rewrite Hq, Hm. ring.
Qed.

Lemma fit_lookup (n : nat) (X : matrix) (st : ScalerState) (j : nat) :
  fit n X = inr st → (j < n)%nat →
  mean_ st !! j = Some (nanmean (column X j))
  ∧ scale_ st !! j = Some (handle_zeros_in_scale (nanvar (column X j))).
Proof.
  intros Hfit Hj. destruct X as [|row X]; [done|].
  injection Hfit as <-. simpl.
  rewrite !list_lookup_fmap, !lookup_seq_lt by done. done.
Qed.

Lemma column_const (X : matrix) (j : nat) (c : Q) :
  X ≠ [] →
  (∀ row, row ∈ X → ∃ q, row !! j = Some (Some q) ∧ (q == c)%Q) →
  column X j ≠ [] ∧ Forall (fun q => q == c)%Q (column X j).
Proof.
  intros HX Hall. unfold column. split.
  - destruct X as [|row X]; [done|].
    destruct (Hall row) as (q & Hq & _); [by left|].
    simpl. by rewrite Hq.
  - clear HX. induction X as [|row X IH]; [constructor|].
    destruct (Hall row) as (q & Hq & Hc); [by left|].
    simpl. rewrite Hq. simpl. constructor; [done|].
    apply IH. intros r Hr. apply Hall. by right.
Qed.
End ScalerFacts.

(** C6 (as amended).  When every training value at position [i] is the
    same, the fitted scale at [i] is exactly 1: [transform] divides by 1,
    never by zero, and yields [(x - m) / 1] at position [i], with [m] the
    fitted mean of that position.  The result is 0 exactly for an input
    equal to the fitted mean, not for every input; a NaN input stays
    NaN. *)
Theorem zero_variance_scale_is_one `{Numeric}
    (n : nat) (X : matrix) (st : ScalerState) (i : nat) (c : Q) :
  (i < n)%nat →
  X ≠ [] →
  (∀ row : list cell, row ∈ X → ∃ q, row !! i = Some (Some q) ∧ (q == c)%Q) →
  fit n X = inr st →
  scale_ st !! i = Some (Some 1%Q)
  ∧ ∃ m, mean_ st !! i = Some (Some m)
    ∧ (∀ (row : list cell) (x : Q), row !! i = Some (Some x) →
         transform_row st row !! i = Some (Some ((x - m) / 1)%Q)
         ∧ (((x - m) / 1 == 0)%Q ↔ (x == m)%Q))
    ∧ (∀ row : list cell, row !! i = Some None → transform_row st row !! i = Some None).
Proof.
  intros Hi HX Hall Hfit.
  destruct (fit_lookup n X st i Hfit Hi) as [Hmean Hscale].
  destruct (column_const X i c HX Hall) as [Hne Hc].
  destruct (nanmean_const _ c Hne Hc) as (m & Hm & _).
  destruct (nanvar_const _ c Hne Hc) as (v & Hv & Hv0).
  rewrite Hm in Hmean. rewrite Hv in Hscale. simpl in Hscale.
  apply Qeq_bool_iff in Hv0. rewrite Hv0 in Hscale.
  split; [done|]. exists m. split; [done|].
  assert (∀ row x, row !! i = Some x →
            transform_row st row !! i = Some (transform_cell x (Some m, Some 1%Q))) as Hrow.
  { intros row x Hx. unfold transform_row.
    rewrite lookup_zip_with, Hx. simpl.
    by rewrite lookup_zip_with, Hmean, Hscale. }
  split.
  - intros row x Hx. split; [exact (Hrow _ _ Hx)|].
    assert ((x - m) / 1 == x - m)%Q as -> by field.
    split; intros Hz.
    + rewrite <-(Qplus_0_l m), <-Hz. ring.
    + rewrite Hz. ring.
  - intros row Hx. exact (Hrow _ _ Hx).
Qed.

(** ** Data processing *)

Section DataProcessingFacts.
Context `{Numeric} `{Pandas} `{ModelSelection} `{Classifier}.
Import DataProcessing.

Lemma update_df_bind {A} (f : dataframe → exn + dataframe) (k : unit → M state A)
    (s : state) (d d' : dataframe) :
  df s = Some d → f d = inr d' →
  (update_df f ≫= k) s = k tt (set_df (Some d') s).
Proof.
  intros Hdf Hf. apply bind_inr. unfold update_df.
  erewrite bind_inr by reflexivity. simpl. rewrite Hdf.
  erewrite bind_inr; [reflexivity|]. unfold lift. by rewrite Hf.
Qed.

Lemma update_df_last (f : dataframe → exn + dataframe)
    (s : state) (d d' : dataframe) :
  df s = Some d → f d = inr d' →
  update_df f s = (inr tt, set_df (Some d') s).
Proof.
  intros Hdf Hf. unfold update_df.
  erewrite bind_inr by reflexivity. simpl. rewrite Hdf.
  erewrite bind_inr; [reflexivity|]. unfold lift. by rewrite Hf.
Qed.

Lemma get_col_Some (d : dataframe) (name : string) (c : list val) :
  cols d !! name = Some c → get_col d name = inr c.
Proof. intros Hc. unfold get_col. by rewrite Hc. Qed.

(** On a column produced by the timestamp parse, [.dt] is defined and
    maps NaT to NaN. *)
Lemma drop_present (d : dataframe) (names : list string) :
  (∀ n, n ∈ names → is_Some (cols d !! n)) →
  drop d names =
    inr (mk_dataframe (nrows d) (foldl (fun c n => delete n c) (cols d) names)).
Proof.
  intros Hall. unfold drop, absent.
  destruct (filter _ names) as [|m ms] eqn:Hab; [done|].
  assert (m ∈ filter (fun n => cols d !! n = None) names) as Hm
    by (rewrite Hab; by left).
  apply list_elem_of_filter in Hm as [Hnone Hm].
  destruct (Hall m Hm) as [c Hc]. congruence.
Qed.

Lemma dt_parsed (f : datetime → Z) (c : list val) :
  dt f ((fun v => VTime (to_datetime v)) <$> c)
  = inr ((fun v => VNum ((fun t => inject_Z (f t)) <$> to_datetime v)) <$> c).
Proof.
  induction c as [|v c IH]; [done|]. rewrite fmap_cons. cbn [dt]. by rewrite IH.
Qed.

Lemma fit_transform_total (y : list string) :
  ∃ codes, LabelEncoder.fit_transform y = inr codes.
Proof.
  destruct (transform_total (LabelEncoder.classes_ y) y) as (codes & Ht & _).
  { intros l. apply classes_elem. }
  by exists codes.
Qed.

Lemma encode_VStr (y : list string) :
  ∃ codes, LabelEncoder.fit_transform y = inr codes
           ∧ encode (VStr <$> y) = inr ((fun k => VNum (Some (inject_Z k))) <$> codes).
Proof.
  destruct (fit_transform_total y) as [codes Hc]. exists codes. split; [done|].
  unfold encode. by rewrite as_strings_VStr, Hc.
Qed.

(** C8.  On a loaded frame with the raw columns, [preprocess] succeeds,
    and at every row whose timestamp does not parse the four calendar
    columns hold NaN, the missing-value marker; the conversion to the
    float array and the scaler keep NaN as NaN. *)
Theorem unparsable_timestamp_gives_missing_calendar
    (s : state) (d : dataframe) (ts mid : list val) (om es : list string)
    (i : nat) (v : val) :
  df s = Some d →
  cols d !! "Timestamp" = Some ts →
  cols d !! "Machine_ID" = Some mid →
  cols d !! "Operation_Mode" = Some (VStr <$> om) →
  cols d !! "Efficiency_Status" = Some (VStr <$> es) →
  ts !! i = Some v →
  to_datetime v = None →
  (∃ s' d', preprocess s = (inr tt, s') ∧ df s' = Some d'
     ∧ ∀ name, name ∈ ["Year"; "Month"; "Day"; "Hour"] →
         ∃ c, cols d' !! name = Some c ∧ c !! i = Some (VNum None))
  ∧ to_cell (Some (VNum None)) = inr None
  ∧ ∀ ms, transform_cell None ms = None.
Proof.
  intros Hdf Hts Hmid Hom Hes Hi Hv. split; [|done].
  destruct (encode_VStr es) as (ces & _ & Hces).
  destruct (encode_VStr om) as (com & _ & Hcom).
  assert (∀ f : datetime → Z,
    ((fun v => VNum ((fun t => inject_Z (f t)) <$> to_datetime v)) <$> ts) !! i
    = Some (VNum None)) as Hnan.
  { intros f. by rewrite list_lookup_fmap, Hi; simpl; rewrite Hv. }
  unfold preprocess, preprocess_body.
  eexists _, _. split; [|split].
  - erewrite try_except_inr; [reflexivity|].
    erewrite bind_inr; [|unfold require_df; erewrite bind_inr by reflexivity;
                          simpl; by rewrite Hdf].
    erewrite update_df_bind; [|exact Hdf|by rewrite (get_col_Some _ _ _ Hts)].
    erewrite update_df_bind; [|reflexivity|].
    2:{ erewrite get_col_Some; [reflexivity|]. simpl. by simplify_map_eq. }
    erewrite update_df_bind; [|reflexivity|].
    2:{ erewrite get_col_Some; [reflexivity|]. simpl. by simplify_map_eq. }
    unfold derive.
    do 4 (erewrite update_df_bind; [|reflexivity|];
      [|erewrite get_col_Some; [|simpl; by simplify_map_eq];
        simpl; rewrite dt_parsed; reflexivity]).
    erewrite update_df_bind; [|reflexivity|].
    2:{ rewrite drop_present; [reflexivity|]. intros n Hn.
        repeat (apply elem_of_cons in Hn as [->|Hn]);
          [..|by apply elem_of_nil in Hn]; simpl; by simplify_map_eq. }
    erewrite update_df_bind; [|reflexivity|].
    2:{ erewrite get_col_Some; [|simpl; by simplify_map_eq].
        simpl. rewrite Hces. reflexivity. }
    erewrite update_df_last; [reflexivity|reflexivity|].
    erewrite get_col_Some; [|simpl; by simplify_map_eq].
    simpl. rewrite Hcom. reflexivity.
  - reflexivity.
  - intros name Hname. simpl.
    repeat (apply elem_of_cons in Hname as [->|Hname]);
      [..|by apply elem_of_nil in Hname];
      (eexists; split; [by simplify_map_eq|apply Hnan]).
Qed.
End DataProcessingFacts.

Section SplitFacts.
Context `{Numeric} `{Pandas} `{ModelSelection} `{Classifier}.
Import DataProcessing.

Lemma select_length (d : dataframe) (names : list string) (cs : list (list val)) :
  select d names = inr cs → length cs = length names.
Proof.
  unfold select, absent.
  destruct (filter _ names) as [|m ms] eqn:Hab; [|done].
  intros [= <-].
  induction names as [|n names IH]; [done|].
  rewrite filter_cons in Hab. simpl.
  destruct (decide (cols d !! n = None)) as [Hn|Hn]; [done|].
  destruct (cols d !! n); [|done]. simpl. f_equal. by apply IH.
Qed.

Lemma to_row_length (cs : list (list val)) (i : nat) (r : list cell) :
  to_row cs i = inr r → length r = length cs.
Proof.
  revert r. induction cs as [|c cs IH]; intros r; simpl.
  - by intros [= <-].
  - destruct (to_cell (c !! i)) as [e|x]; [done|].
    destruct (to_row cs i) as [e|r']; [done|].
    intros [= <-]. simpl. by rewrite (IH r').
Qed.

Lemma to_rows_shape (cs : list (list val)) (idx : list nat) (X : matrix) :
  to_rows cs idx = inr X →
  length X = length idx ∧ Forall (fun r => length r = length cs) X.
Proof.
  revert X. induction idx as [|i idx IH]; intros X; simpl.
  - intros [= <-]. by split.
  - destruct (to_row cs i) as [e|r] eqn:Hr; [done|].
    destruct (to_rows cs idx) as [e|X']; [done|].
    intros [= <-]. destruct (IH X' eq_refl) as [Hlen Hall].
    split; [simpl; by rewrite Hlen|].
    constructor; [by eapply to_row_length|done].
Qed.

Lemma transform_all (st : ScalerState) (X : matrix) :
  Forall (fun r => length r = length (mean_ st)) X →
  StandardScaler.transform st X = inr (transform_row st <$> X).
Proof.
  induction 1 as [|r X Hr _ IH]; [done|]. simpl.
  rewrite decide_True by done. by rewrite IH.
Qed.

Lemma fit_nonempty (n : nat) (X : matrix) :
  X ≠ [] → ∃ st, fit n X = inr st ∧ length (mean_ st) = n.
Proof.
  intros HX. destruct X as [|r X]; [done|].
  eexists. split; [reflexivity|]. simpl.
  by rewrite length_fmap, length_seq.
Qed.

(** C4.  On a processed frame, [split_and_scale_and_save] fits the scaler
    on the array of all rows of the frame and scales that whole array;
    the split is then made on the scaled array, with test size 0.2,
    random state 42 and stratification on the label column. *)
Theorem scaler_fitted_on_all_rows_before_split
    (s : state) (d : dataframe) (Xc : list (list val)) (y : list val) (X : matrix) :
  df s = Some d →
  select d FEATURES = inr Xc →
  get_col d "Efficiency_Status" = inr y →
  to_matrix (nrows d) Xc = inr X →
  nrows d ≠ 0%nat →
  ∃ st,
    fit (length FEATURES) X = inr st
    ∧ length X = nrows d
    ∧ (∀ j, (j < length FEATURES)%nat →
         mean_ st !! j = Some (nanmean (column X j))
         ∧ scale_ st !! j = Some (handle_zeros_in_scale (nanvar (column X j))))
    ∧ split_and_scale_and_save s =
        match train_test_split (transform_row st <$> X) y 0.2%Q 42 (Some y) with
        | inl e =>
            (inl (CustomException "Failed to split, scale, and save data" e),
             set_features (Some FEATURES) s)
        | inr (X_train, X_test, y_train, y_test) =>
            let file := path_join (output_path s) in
            (inr tt,
             set_fs (<[file "scaler.pkl" := AScaler st]>
                     (<[file "y_test.pkl" := ASeries y_test]>
                      (<[file "y_train.pkl" := ASeries y_train]>
                       (<[file "X_test.pkl" := AArray X_test]>
                        (<[file "X_train.pkl" := AArray X_train]> (fs s))))))
                    (set_features (Some FEATURES) s))
        end.
Proof.
  intros Hdf Hsel Hy Hmat Hrows.
  destruct (to_rows_shape _ _ _ Hmat) as [Hlen Hwidth].
  rewrite length_seq in Hlen.
  rewrite (select_length _ _ _ Hsel) in Hwidth.
  destruct (fit_nonempty (length FEATURES) X) as (st & Hfit & Hst).
  { intros ->. simpl in Hlen. lia. }
  exists st. split; [done|]. split; [done|].
  split; [intros j Hj; by apply (fit_lookup (length FEATURES))|].
  assert (StandardScaler.fit_transform (length FEATURES) X
          = inr (st, transform_row st <$> X)) as Hft.
  { unfold StandardScaler.fit_transform. rewrite Hfit, transform_all; [done|].
    by rewrite Hst. }
  assert ((to_matrix (nrows d) Xc
             ≫= fun X => StandardScaler.fit_transform (length FEATURES) X)
          = inr (st, transform_row st <$> X)) as Hcomb.
  { rewrite Hmat. exact Hft. }
  unfold split_and_scale_and_save, split_and_scale_and_save_body.
  assert (∀ A (k : dataframe → M state A), (require_df ≫= k) s = k d s) as Hreq.
  { intros A k. apply bind_inr. unfold require_df.
    erewrite bind_inr by reflexivity. simpl. by rewrite Hdf. }
  destruct (train_test_split (transform_row st <$> X) y 0.2%Q 42 (Some y))
    as [e|[[[X_train X_test] y_train] y_test]] eqn:Hsplit.
  - erewrite try_except_inl; [reflexivity|].
    rewrite Hreq.
    erewrite bind_inr by reflexivity.
    erewrite bind_inr; [|unfold lift; by rewrite Hsel].
    erewrite bind_inr; [|unfold lift; by rewrite Hy].
    erewrite bind_inr; [|unfold lift; by rewrite Hcomb].
    apply bind_inl. unfold lift. simpl. by rewrite Hsplit.
  - erewrite try_except_inr; [reflexivity|].
    rewrite Hreq.
    erewrite bind_inr by reflexivity.
    erewrite bind_inr; [|unfold lift; by rewrite Hsel].
    erewrite bind_inr; [|unfold lift; by rewrite Hy].
    erewrite bind_inr; [|unfold lift; by rewrite Hcomb].
    erewrite bind_inr; [|unfold lift; simpl; by rewrite Hsplit].
    reflexivity.
Qed.
End SplitFacts.

(** ** Model training *)

Section TrainingFacts.
Context {Nm : Numeric} {Pd : Pandas} {Ms : ModelSelection} {Cl : Classifier} {Mt : Metrics}.

(** [evaluate_model] never writes a file. *)
Lemma evaluate_model_fs (s : ModelTraining.state) :
  ModelTraining.fs (ModelTraining.evaluate_model s).2 = ModelTraining.fs s.
Proof.
  unfold ModelTraining.evaluate_model, try_except, mbind, M_bind, Py.bind, gets, lift.
  simpl. destruct (ModelTraining.clf s) as [c|]; [|done]. simpl.
  destruct (estimator_predict c _) as [e|y_pred]; [done|].
  destruct (accuracy_score _ _) as [e|a]; [done|].
  destruct (precision_score _ _ _) as [e|p]; [done|].
  destruct (recall_score _ _ _) as [e|r]; [done|].
  destruct (f1_score _ _ _) as [e|f]; done.
Qed.

Lemma train_model_ok (s : ModelTraining.state) (fitted : estimator) :
  estimator_fit (LogisticRegression 42 1000)
    (ModelTraining.X_train s) (ModelTraining.y_train s) = inr fitted →
  ModelTraining.train_model s =
    (inr tt,
     ModelTraining.set_fs
       (<[path_join (ModelTraining.model_path s) "model.pkl" := AEstimator fitted]>
          (ModelTraining.fs s))
       (ModelTraining.set_clf (Some fitted) s)).
Proof.
  intros Hfit. unfold ModelTraining.train_model.
  erewrite try_except_inr; [reflexivity|].
  erewrite bind_inr by reflexivity.
  erewrite bind_inr by reflexivity.
  erewrite bind_inr; [|unfold lift; simpl; by rewrite Hfit].
  erewrite bind_inr by reflexivity. reflexivity.
Qed.



(** C9.  Once the processed data are loaded and [fit] returns, [run]
    leaves the fitted estimator in [model.pkl], whatever the scores
    computed by [evaluate_model] and whether or not it raises; and
    [evaluate_model] never touches the files. *)
Theorem model_persisted_whatever_the_scores
    (s0 s1 : ModelTraining.state) (fitted : estimator) :
  ModelTraining.load_data s0 = (inr tt, s1) →
  estimator_fit (LogisticRegression 42 1000)
    (ModelTraining.X_train s1) (ModelTraining.y_train s1) = inr fitted →
  (ModelTraining.train_model s1).1 = inr tt
  ∧ ModelTraining.fs (ModelTraining.train_model s1).2
      !! path_join (ModelTraining.model_path s1) "model.pkl" = Some (AEstimator fitted)
  ∧ ModelTraining.fs (ModelTraining.run s0).2
      !! path_join (ModelTraining.model_path s1) "model.pkl" = Some (AEstimator fitted)
  ∧ ∀ s, ModelTraining.fs (ModelTraining.evaluate_model s).2 = ModelTraining.fs s.
Proof.
  intros Hload Hfit. rewrite (train_model_ok s1 fitted Hfit). simpl.
  split; [done|]. split; [by rewrite lookup_insert_eq|].
  split; [|apply evaluate_model_fs].
  unfold ModelTraining.run.
  erewrite bind_inr by exact Hload.
  erewrite bind_inr by exact (train_model_ok s1 fitted Hfit).
  rewrite evaluate_model_fs. simpl. by rewrite lookup_insert_eq.
Qed.
End TrainingFacts.

(** ** The serving handler *)

Section AppFacts.
Context {PF : PyFloat} {SA : ServingArtifacts}.
Import App AppSpec.

Lemma step_result (form : list (string * string)) (values : list float)
    (feat : string) (h : hstate) :
  step form values feat h =
    match value_of form (globals h) feat with
    | inl e => (inl e, h)
    | inr v => (inr (values ++ [v])%list, (write_fv feat (entry_of form feat v) h).2)
    end.
Proof.
  unfold step, value_of, entry_of. destruct (decide (feat = "Operation_Mode")) as [->|Hne].
  - change (OPERATION_MODE_CHOICES !! 0%nat) with (Some "Idle").
    cbv beta iota zeta.
    destruct (dict_get OPERATION_MODE_MAP (form_get form "Operation_Mode" "Idle"));
      reflexivity.
  - unfold mbind, M_bind, Py.bind, gets. simpl.
    destruct (float_of_str _); reflexivity.
Qed.

Lemma build_cons (form : list (string * string)) (feat : string)
    (feats : list string) (values : list float) (h : hstate) :
  build form (feat :: feats) values h =
    match step form values feat h with
    | (inl e, h') => (inl e, h')
    | (inr values', h') => build form feats values' h'
    end.
Proof. reflexivity. Qed.

Lemma globals_write_ne (k k' : string) (v : pyval) (h : hstate) :
  k ≠ k' → globals (write_fv k v h).2 !! k' = globals h !! k'.
Proof.
  intros Hne. unfold write_fv, modify. simpl.
  destruct (form_values h); simpl; [by rewrite lookup_insert_ne|done].
Qed.

Lemma deref_write_ne (k k' : string) (v : pyval) (h : hstate) :
  k ≠ k' → deref (write_fv k v h).2 !! k' = deref h !! k'.
Proof.
  intros Hne. unfold write_fv, modify, deref. simpl.
  destruct (form_values h); simpl; by rewrite lookup_insert_ne.
Qed.

Lemma deref_write_eq (k : string) (v : pyval) (h : hstate) :
  deref (write_fv k v h).2 !! k = Some v.
Proof.
  unfold write_fv, modify, deref. simpl.
  destruct (form_values h); simpl; by rewrite lookup_insert_eq.
Qed.

Lemma value_of_agree (form : list (string * string)) (G G' : gmap string pyval)
    (feat : string) :
  G !! feat = G' !! feat → value_of form G feat = value_of form G' feat.
Proof. intros Heq. unfold value_of. by rewrite Heq. Qed.

Lemma collect_agree (form : list (string * string)) (G G' : gmap string pyval)
    (feats : list string) :
  (∀ f, f ∈ feats → G !! f = G' !! f) → collect form G feats = collect form G' feats.
Proof.
  induction feats as [|feat feats IH]; intros Hag; [done|]. simpl.
  rewrite (value_of_agree form G G' feat) by (apply Hag; by left).
  rewrite IH; [done|]. intros f Hf. apply Hag. by right.
Qed.

(** The loop computes [collect] on the dict as it stood when the loop
    started: an iteration writes only under its own feature name. *)
Lemma build_result (form : list (string * string)) (feats : list string) :
  NoDup feats → ∀ (values : list float) (h : hstate),
  (build form feats values h).1 =
    match collect form (globals h) feats with
    | inl e => inl e
    | inr vs => inr (values ++ vs)%list
    end.
Proof.
  induction 1 as [|feat feats Hnotin Hnd IH]; intros values h.
  - simpl. by rewrite app_nil_r.
  - simpl. unfold mbind, M_bind, Py.bind. rewrite step_result.
    destruct (value_of form (globals h) feat) as [e|v]; [done|].
    rewrite IH.
    rewrite (collect_agree form _ (globals h) feats).
    + destruct (collect form (globals h) feats); [done|].
      by rewrite <-app_assoc.
    + intros f Hf. apply globals_write_ne. intros ->. done.
Qed.

Lemma collect_inl (form : list (string * string)) (G : gmap string pyval)
    (feats : list string) (e : exn) :
  collect form G feats = inl e → ∃ feat, feat ∈ feats ∧ value_of form G feat = inl e.
Proof.
  induction feats as [|feat feats IH]; [done|]. simpl.
  destruct (value_of form G feat) as [e'|v] eqn:Hv.
  - intros [= <-]. exists feat. split; [by left|done].
  - destruct (collect form G feats) as [e'|vs]; [|done].
    intros [= <-]. destruct IH as (f & Hf & Hfe); [done|].
    exists f. split; [by right|done].
Qed.

Lemma collect_inr (form : list (string * string)) (G : gmap string pyval)
    (feats : list string) (vs : list float) :
  collect form G feats = inr vs →
  length vs = length feats
  ∧ ∀ i feat, feats !! i = Some feat →
      ∃ v, vs !! i = Some v ∧ value_of form G feat = inr v.
Proof.
  revert vs. induction feats as [|feat feats IH]; intros vs; simpl.
  - intros [= <-]. split; [done|]. intros i f. by rewrite lookup_nil.
  - destruct (value_of form G feat) as [e'|v] eqn:Hv; [done|].
    destruct (collect form G feats) as [e'|vs']; [done|].
    intros [= <-]. destruct (IH vs' eq_refl) as [Hlen Hvs].
    split; [simpl; by rewrite Hlen|].
    intros [|i] f; simpl; [intros [= <-]; eauto|apply Hvs].
Qed.

Lemma FEATURES_NoDup : NoDup FEATURES.
Proof. apply (bool_decide_unpack _). vm_compute. exact I. Qed.

Lemma dict_get_None {K V} `{EqDecision K} (d : list (K * V)) (k : K) :
  dict_get d k = None ↔ k ∉ d.*1.
Proof.
  induction d as [|[k' v] d IH]; simpl.
  - split; [intros _; apply not_elem_of_nil|done].
  - case_decide as Hk; subst.
    + split; [done|]. intros []. by left.
    + rewrite IH, not_elem_of_cons. split; [by intros ?|by intros [_ ?]].
Qed.

Lemma dict_get_mode_None (label : string) :
  dict_get OPERATION_MODE_MAP label = None ↔ label ∉ OPERATION_MODE_CHOICES.
Proof. apply dict_get_None. Qed.

(** *** The module-level dict keeps numbers under the numeric features *)

Lemma write_numeric (k : string) (v : pyval) (h : hstate) :
  k = "Operation_Mode" ∨ is_number v →
  numeric_defaults (globals h) →
  numeric_defaults (globals (write_fv k v h).2).
Proof.
  intros Hkv Hnum. unfold write_fv, modify. simpl.
  destruct (form_values h); simpl; [|done].
  intros k' v' Hk'. rewrite lookup_insert. case_decide; [|by apply Hnum].
  intros [= <-]. destruct Hkv; congruence.
Qed.

Lemma step_numeric (form : list (string * string)) (values : list float)
    (feat : string) (h : hstate) :
  numeric_defaults (globals h) →
  numeric_defaults (globals (step form values feat h).2).
Proof.
  intros Hnum. rewrite step_result.
  destruct (value_of form (globals h) feat) as [e|v]; [done|].
  apply write_numeric; [|done]. unfold entry_of.
  case_decide; [by left|by right].
Qed.

Lemma build_numeric (form : list (string * string)) (feats : list string)
    (values : list float) (h : hstate) :
  numeric_defaults (globals h) →
  numeric_defaults (globals (build form feats values h).2).
Proof.
  revert values h. induction feats as [|feat feats IH]; intros values h Hnum; [done|].
  simpl. unfold mbind, M_bind, Py.bind.
  pose proof (step_numeric form values feat h Hnum) as Hstep.
  destruct (step form values feat h) as [[e|vs] h']; [done|].
  by apply IH.
Qed.

(** The state that the handler leaves is the one left by the loop. *)
Lemma predict_body_state (form : list (string * string)) (h : hstate) :
  (predict_body form h).2 = (build form FEATURES [] h).2.
Proof.
  unfold predict_body, mbind, M_bind, Py.bind, lift.
  destruct (build form FEATURES [] h) as [[e|values] h']; [done|].
  destruct (scaler_transform values) as [e|scaled]; [done|].
  destruct (model_predict scaled); done.
Qed.

Lemma predict_body_result (form : list (string * string)) (h : hstate) :
  (predict_body form h).1 =
    match (build form FEATURES [] h).1 with
    | inl e => inl e
    | inr values =>
        match scaler_transform values with
        | inl e => inl e
        | inr scaled_array =>
            match model_predict scaled_array with
            | inl e => inl e
            | inr pred_idx => inr (label_of pred_idx)
            end
        end
    end.
Proof.
  unfold predict_body, mbind, M_bind, Py.bind, lift.
  destruct (build form FEATURES [] h) as [[e|values] h']; [done|]. simpl.
  destruct (scaler_transform values) as [e|scaled]; [done|].
  destruct (model_predict scaled); done.
Qed.

(** [handler] never raises: its outcome is a response. *)
Lemma handler_post (form : list (string * string)) (h : hstate) :
  handler (mk_request POST form) h =
    let r := predict_body form h in
    (inr (mk_response
            (Some match r.1 with
                  | inl e => "Error: " ++ exn_str e
                  | inr label => label
                  end)
            FEATURES (deref r.2) OPERATION_MODE_CHOICES),
     r.2).
Proof.
  unfold handler, try_except, mbind, M_bind, Py.bind, gets, mret, M_ret, Py.ret.
  simpl. destruct (predict_body form h) as [[e|label] h']; reflexivity.
Qed.

Lemma handler_get (form : list (string * string)) (h : hstate) :
  handler (mk_request GET form) h =
    (inr (mk_response None FEATURES (deref h) OPERATION_MODE_CHOICES), h).
Proof. reflexivity. Qed.

Lemma index_numeric (req : request) (file : means_file) (G : gmap string pyval) :
  numeric_defaults G → numeric_defaults (index req file G).2.
Proof.
  intros Hnum. unfold index. simpl. destruct req as [[|] form].
  - by rewrite handler_get.
  - rewrite handler_post. simpl. rewrite predict_body_state.
    by apply build_numeric.
Qed.

Lemma DEFAULTS_FALLBACK_numeric (now : clock) : numeric_defaults (DEFAULTS_FALLBACK now).
Proof.
  intros k v Hk Hlook. unfold DEFAULTS_FALLBACK in Hlook.
  apply elem_of_list_to_map_2 in Hlook.
  repeat (apply elem_of_cons in Hlook as [[= -> ->]|Hlook]; [done|]).
  by apply elem_of_nil in Hlook.
Qed.

Lemma reachable_numeric (now : clock) (G : gmap string pyval) :
  reachable now G → numeric_defaults G.
Proof.
  induction 1 as [|G req file _ IH].
  - apply DEFAULTS_FALLBACK_numeric.
  - by apply index_numeric.
Qed.

(** *** One feature at a time *)

Lemma value_of_mode_present (form : list (string * string)) (G : gmap string pyval)
    (label : string) :
  dict_get form "Operation_Mode" = Some label →
  value_of form G "Operation_Mode" =
    match dict_get OPERATION_MODE_MAP label with
    | None => inl (unknown_mode label)
    | Some mode_code => inr (float_of_int mode_code)
    end.
Proof. intros Hl. unfold value_of, form_get. simpl. by rewrite Hl. Qed.

Lemma value_of_mode_absent (form : list (string * string)) (G : gmap string pyval) :
  dict_get form "Operation_Mode" = None →
  value_of form G "Operation_Mode" = inr (float_of_int 0).
Proof. intros Hl. unfold value_of, form_get. simpl. by rewrite Hl. Qed.

Lemma default_parses {Laws : PyFloatLaws} (G : gmap string pyval) (feat : string) :
  feat ≠ "Operation_Mode" → numeric_defaults G →
  is_Some (float_of_str (py_str (from_option id (PFloat (float_of_Q 0.0)) (G !! feat)))).
Proof.
  intros Hne Hnum. destruct (G !! feat) as [v|] eqn:Hv; simpl.
  - specialize (Hnum feat v Hne Hv).
    destruct v; simpl in *; try done;
      [apply float_of_str_int|apply float_of_str_float].
  - apply float_of_str_float.
Qed.

Lemma value_of_numeric_absent (form : list (string * string)) (G : gmap string pyval)
    (feat : string) :
  feat ≠ "Operation_Mode" → dict_get form feat = None →
  value_of form G feat =
    match float_of_str (py_str (from_option id (PFloat (float_of_Q 0.0)) (G !! feat))) with
    | None => inl (float_error (py_str (from_option id (PFloat (float_of_Q 0.0)) (G !! feat))))
    | Some val => inr val
    end.
Proof.
  intros Hne Hl. unfold value_of, form_get. rewrite Hl. simpl.
  by case_decide.
Qed.

Lemma value_of_numeric_present (form : list (string * string)) (G : gmap string pyval)
    (feat raw : string) :
  feat ≠ "Operation_Mode" → dict_get form feat = Some raw →
  value_of form G feat =
    match float_of_str raw with
    | None => inl (float_error raw)
    | Some val => inr val
    end.
Proof.
  intros Hne Hl. unfold value_of, form_get. rewrite Hl. simpl.
  by case_decide.
Qed.
End AppFacts.

Section ReferenceFacts.
Import Reference.

Lemma int_of_string_of_int (d : Decimal.int) :
  is_Some (NilZero.int_of_string (NilZero.string_of_int d)).
Proof.
  destruct d as [u|u]; destruct u;
    first [ by eexists
          | rewrite NilZero.isi; [by eexists|discriminate..] ].
Qed.

Lemma int_float_laws : PyFloatLaws.
Proof.
  split; intros n; simpl; unfold str_of_int;
    destruct (int_of_string_of_int (Z.to_int n)) as [d ->]; by eexists.
Qed.
End ReferenceFacts.

Section Serving.
Context {PF : PyFloat} {SA : ServingArtifacts}.
Import App AppSpec.

(** C2.  A submitted operation-mode label outside the known set makes the
    loop raise the unknown-mode [ValueError] at once: no value is appended,
    no entry of [form_values] is written, and [index] renders the error
    message as the prediction. *)
Theorem unknown_operation_mode_is_reported
    (form : list (string * string)) (label : string)
    (file : means_file) (G : gmap string pyval) :
  dict_get form "Operation_Mode" = Some label →
  label ∉ OPERATION_MODE_CHOICES →
  (∀ h, build form FEATURES [] h = (inl (unknown_mode label), h))
  ∧ index (mk_request POST form) file G =
      (inr (mk_response
              (Some ("Error: Unknown Operation_Mode '" ++ label ++ "'."))
              FEATURES
              (deref (mk_hstate G (load_feature_means G file)))
              OPERATION_MODE_CHOICES),
       G).
Proof.
  intros Hform Hunknown%dict_get_mode_None.
  assert (∀ h, build form FEATURES [] h = (inl (unknown_mode label), h)) as Hbuild.
  { intros h. change FEATURES with ("Operation_Mode" :: tail FEATURES).
    rewrite build_cons, step_result.
    by rewrite (value_of_mode_present form _ label Hform), Hunknown. }
  split; [exact Hbuild|].
  unfold index. rewrite handler_post. simpl.
  unfold predict_body, mbind, M_bind, Py.bind. rewrite Hbuild. reflexivity.
Qed.

(** C7.  [index] is total: whatever the request, the means file and the
    module-level dict, it returns a response.  For a POST, an exception
    raised by the loop, by the scaler or by the model becomes the
    prediction string ["Error: ..."]. *)
Theorem serving_errors_are_caught
    (req : request) (file : means_file) (G : gmap string pyval) :
  ∃ (r : response) (G' : gmap string pyval),
    index req file G = (inr r, G')
    ∧ prediction r =
        match req_method req with
        | GET => None
        | POST =>
            Some match (predict_body (req_form req)
                          (mk_hstate G (load_feature_means G file))).1 with
                 | inl e => "Error: " ++ exn_str e
                 | inr label => label
                 end
        end.
Proof.
  destruct req as [[|] form]; unfold index.
  - rewrite handler_get. by eexists _, _.
  - rewrite handler_post. by eexists _, _.
Qed.

Lemma build_inl (form : list (string * string)) (h : hstate) (e : exn) :
  (build form FEATURES [] h).1 = inl e →
  ∃ feat, feat ∈ FEATURES ∧ value_of form (globals h) feat = inl e.
Proof.
  rewrite (build_result form FEATURES FEATURES_NoDup).
  destruct (collect form (globals h) FEATURES) as [e'|vs] eqn:Hc; [|done].
  intros [= <-]. by apply collect_inl.
Qed.

Lemma build_inr (form : list (string * string)) (h : hstate) (values : list float) :
  (build form FEATURES [] h).1 = inr values →
  length values = length FEATURES
  ∧ ∀ i feat, FEATURES !! i = Some feat →
      ∃ v, values !! i = Some v ∧ value_of form (globals h) feat = inr v.
Proof.
  rewrite (build_result form FEATURES FEATURES_NoDup).
  destruct (collect form (globals h) FEATURES) as [e'|vs] eqn:Hc; [done|].
  intros [= <-]. by apply collect_inr.
Qed.

(** C3 (as amended).  In any state a serving process can reach, an absent
    field never makes the loop fail: the only errors are the unknown-mode
    error for a submitted label and the conversion error for a submitted
    value.  When the loop succeeds, the position of an absent numeric
    field holds [float(str(d))] for its entry [d] of the module-level
    dict, and the position of an absent operation mode holds the code of
    ["Idle"]. *)
Theorem absent_field_takes_default {Laws : PyFloatLaws}
    (now : clock) (G : gmap string pyval) (fv : fv_ref)
    (form : list (string * string)) :
  reachable now G →
  match (build form FEATURES [] (mk_hstate G fv)).1 with
  | inl e =>
      (∃ label, dict_get form "Operation_Mode" = Some label
                ∧ (label ∉ OPERATION_MODE_CHOICES) ∧ e = unknown_mode label)
      ∨ (∃ feat raw, feat ∈ FEATURES ∧ dict_get form feat = Some raw
                     ∧ float_of_str raw = None ∧ e = float_error raw)
  | inr values =>
      length values = length FEATURES
      ∧ ∀ i feat, FEATURES !! i = Some feat → dict_get form feat = None →
          values !! i =
            if decide (feat = "Operation_Mode") then Some (float_of_int 0)
            else float_of_str
                   (py_str (from_option id (PFloat (float_of_Q 0.0)) (G !! feat)))
  end.
Proof.
  intros Hnum%reachable_numeric.
  destruct (build form FEATURES [] (mk_hstate G fv)).1 as [e|values] eqn:Hb.
  - apply build_inl in Hb as (feat & Hfeat & Hv). simpl in Hv.
    destruct (decide (feat = "Operation_Mode")) as [->|Hne].
    + destruct (dict_get form "Operation_Mode") as [label|] eqn:Hl.
      * rewrite (value_of_mode_present form G label Hl) in Hv.
        destruct (dict_get OPERATION_MODE_MAP label) eqn:Hm; [done|].
        injection Hv as <-. left. exists label.
        by rewrite <-dict_get_mode_None.
      * by rewrite (value_of_mode_absent form G Hl) in Hv.
    + destruct (dict_get form feat) as [raw|] eqn:Hl.
      * rewrite (value_of_numeric_present form G feat raw Hne Hl) in Hv.
        destruct (float_of_str raw) eqn:Hp; [done|].
        injection Hv as <-. right. by exists feat, raw.
      * rewrite (value_of_numeric_absent form G feat Hne Hl) in Hv.
        destruct (default_parses G feat Hne Hnum) as [x Hx].
        by rewrite Hx in Hv.
  - apply build_inr in Hb as [Hlen Hvals]. split; [done|].
    intros i feat Hi Hl. destruct (Hvals i feat Hi) as (v & -> & Hv).
    simpl in Hv. case_decide as Hfeat; subst.
    + rewrite (value_of_mode_absent form G Hl) in Hv. by injection Hv as <-.
    + rewrite (value_of_numeric_absent form G feat Hfeat Hl) in Hv.
      destruct (float_of_str _); by simplify_eq.
Qed.

Lemma form_get_idle (form : list (string * string)) (k d : string) :
  dict_get form "Operation_Mode" = None →
  (k = "Operation_Mode" → d = "Idle") →
  form_get (("Operation_Mode", "Idle") :: form) k d = form_get form k d.
Proof.
  intros Hl Hk. unfold form_get. simpl. case_decide as Hd.
  - subst k. rewrite Hl. simpl. by rewrite Hk.
  - done.
Qed.

Lemma step_idle (form : list (string * string)) (values : list float)
    (feat : string) (h : hstate) :
  dict_get form "Operation_Mode" = None →
  step (("Operation_Mode", "Idle") :: form) values feat h = step form values feat h.
Proof.
  intros Hl. rewrite !step_result.
  assert (∀ G, value_of (("Operation_Mode", "Idle") :: form) G feat
               = value_of form G feat) as ->.
  { intros G. unfold value_of. case_decide as Hfeat.
    - by rewrite form_get_idle.
    - rewrite form_get_idle; [done..|]. by intros ->. }
  unfold entry_of. by rewrite form_get_idle.
Qed.

Lemma build_idle (form : list (string * string)) (feats : list string)
    (values : list float) (h : hstate) :
  dict_get form "Operation_Mode" = None →
  build (("Operation_Mode", "Idle") :: form) feats values h = build form feats values h.
Proof.
  intros Hl. revert values h.
  induction feats as [|feat feats IH]; intros values h; [done|].
  simpl. unfold mbind, M_bind, Py.bind. rewrite (step_idle _ _ _ _ Hl).
  destruct (step form values feat h) as [[e|vs] h']; [done|]. apply IH.
Qed.

Lemma build_deref_ne (form : list (string * string)) (feats : list string)
    (k : string) (values : list float) (h : hstate) :
  k ∉ feats → deref (build form feats values h).2 !! k = deref h !! k.
Proof.
  revert values h. induction feats as [|feat feats IH]; intros values h Hk; [done|].
  apply not_elem_of_cons in Hk as [Hne Hk].
  simpl. unfold mbind, M_bind, Py.bind. rewrite step_result.
  destruct (value_of form (globals h) feat) as [e|v]; [done|].
  rewrite IH by done. by apply deref_write_ne.
Qed.

(** C10.  When the form has no [Operation_Mode] field, the handler behaves
    exactly as if ["Idle"] had been submitted: the loop never raises the
    unknown-mode error, it records ["Idle"] in [form_values], the first
    feature value is the code 0 of ["Idle"], and when the remaining
    values, the scaler and the model go through, the response carries the
    predicted label. *)
Theorem absent_operation_mode_is_idle
    (form : list (string * string)) (file : means_file) (G : gmap string pyval) :
  dict_get form "Operation_Mode" = None →
  OPERATION_MODE_CHOICES !! 0%nat = Some "Idle"
  ∧ index (mk_request POST form) file G
    = index (mk_request POST (("Operation_Mode", "Idle") :: form)) file G
  ∧ (∀ h label, (build form FEATURES [] h).1 ≠ inl (unknown_mode label))
  ∧ (∀ h, deref (build form FEATURES [] h).2 !! "Operation_Mode" = Some (PStr "Idle"))
  ∧ (∀ h values, (build form FEATURES [] h).1 = inr values →
       values !! 0%nat = Some (float_of_int 0))
  ∧ (∀ values scaled_array pred_idx,
       (build form FEATURES [] (mk_hstate G (load_feature_means G file))).1 = inr values →
       scaler_transform values = inr scaled_array →
       model_predict scaled_array = inr pred_idx →
       ∃ r G', index (mk_request POST form) file G = (inr r, G')
               ∧ prediction r = Some (label_of pred_idx)).
Proof.
  intros Hl. split; [reflexivity|]. split; [|split; [|split; [|split]]].
  - unfold index. rewrite !handler_post. simpl.
    assert (∀ h, predict_body (("Operation_Mode", "Idle") :: form) h
                 = predict_body form h) as ->; [|done].
    intros h. unfold predict_body, mbind, M_bind, Py.bind.
    by rewrite (build_idle _ _ _ _ Hl).
  - intros h label Hb. apply build_inl in Hb as (feat & Hfeat & Hv).
    destruct (decide (feat = "Operation_Mode")) as [->|Hne].
    + by rewrite (value_of_mode_absent form _ Hl) in Hv.
    + unfold value_of in Hv. rewrite decide_False in Hv by done.
      simpl in Hv. destruct (float_of_str _); [done|].
      unfold float_error, unknown_mode in Hv. discriminate Hv.
  - intros h. change FEATURES with ("Operation_Mode" :: tail FEATURES).
    rewrite build_cons, step_result, (value_of_mode_absent form _ Hl).
    rewrite build_deref_ne.
    + rewrite deref_write_eq. unfold entry_of, form_get. by rewrite Hl.
    + apply (bool_decide_unpack _). vm_compute. exact I.
  - intros h values Hb. apply build_inr in Hb as [_ Hvals].
    destruct (Hvals 0%nat "Operation_Mode" eq_refl) as (v & -> & Hv).
    rewrite (value_of_mode_absent form _ Hl) in Hv. by injection Hv as <-.
  - intros values scaled pred_idx Hb Hs Hm. unfold index.
    rewrite handler_post. simpl. eexists _, _. split; [reflexivity|]. simpl.
    by rewrite predict_body_result, Hb, Hs, Hm.
Qed.
End Serving.

(** ** The statements on concrete data *)

Section Instances.
Import Reference App AppSpec.

(** A column first met in the order Idle, Active, Maintenance is encoded
    Active 0, Idle 1, Maintenance 2: the code of ["Idle"] is neither its
    first-seen rank nor the code the serving map gives it.  [preprocess]
    on the sample frame, whose modes are Idle then Active, leaves the codes
    1 then 0. *)
Lemma label_codes_not_first_seen :
  LabelEncoder.fit_transform sample_modes = inr [1; 0; 2; 1]
  ∧ LabelEncoder.mapping sample_modes = [("Active", 0); ("Idle", 1); ("Maintenance", 2)]
  ∧ FirstSeen.first_seen_classes sample_modes = ["Idle"; "Active"; "Maintenance"]
  ∧ LabelEncoder.index_of (LabelEncoder.classes_ sample_modes) "Idle"
    ≠ FirstSeen.first_seen_code sample_modes "Idle"
  ∧ Z.of_nat <$> LabelEncoder.index_of (LabelEncoder.classes_ sample_modes) "Idle"
    ≠ dict_get OPERATION_MODE_MAP "Idle"
  ∧ match DataProcessing.preprocess loaded_processing with
    | (inr _, s') =>
        (DataProcessing.df s' ≫= fun d => cols d !! "Operation_Mode") = Some (nums [1; 0])
    | (inl _, _) => False
    end.
Proof. vm_compute. repeat split; discriminate. Qed.

Lemma unknown_operation_mode_is_reported_witness :
  dict_get [("Operation_Mode", "Turbo")] "Operation_Mode" = Some "Turbo"
  ∧ ("Turbo" ∉ OPERATION_MODE_CHOICES)
  ∧ (∀ h, build [("Operation_Mode", "Turbo")] FEATURES [] h
          = (inl (unknown_mode "Turbo"), h))
  ∧ index (mk_request POST [("Operation_Mode", "Turbo")]) NoFile (DEFAULTS_FALLBACK sample_clock)
    = (inr (mk_response
              (Some ("Error: Unknown Operation_Mode '" ++ "Turbo" ++ "'."))
              FEATURES
              (deref (mk_hstate (DEFAULTS_FALLBACK sample_clock)
                        (load_feature_means (DEFAULTS_FALLBACK sample_clock) NoFile)))
              OPERATION_MODE_CHOICES),
       DEFAULTS_FALLBACK sample_clock).
Proof.
  assert ("Turbo" ∉ OPERATION_MODE_CHOICES) as Hturbo.
  { apply (bool_decide_unpack _). vm_compute. exact I. }
  split; [reflexivity|]. split; [exact Hturbo|].
  apply (unknown_operation_mode_is_reported
           [("Operation_Mode", "Turbo")] "Turbo" NoFile (DEFAULTS_FALLBACK sample_clock));
    [reflexivity|exact Hturbo].
Defined.

(** A submission without [Temperature_C] is prepared without any error:
    the default 65 fills the position, and a label is predicted. *)
Lemma missing_field_is_not_an_error :
  dict_get sample_form "Temperature_C" = None
  ∧ (build sample_form FEATURES [] (mk_hstate (DEFAULTS_FALLBACK sample_clock) Alias)).1
    = inr [1; 65; 50; 35; 15; 1; 1; 120; 55; 1; 2024; 1; 15; 10]
  ∧ match (index (mk_request POST sample_form) NoFile (DEFAULTS_FALLBACK sample_clock)).1 with
    | inr r => prediction r = Some "Low"
    | inl _ => False
    end.
Proof.
  split; [reflexivity|]. split; vm_compute; reflexivity.
Qed.

Lemma absent_field_takes_default_witness :
  reachable sample_clock (DEFAULTS_FALLBACK sample_clock)
  ∧ match (build [] FEATURES [] (mk_hstate (DEFAULTS_FALLBACK sample_clock) Alias)).1 with
    | inl e =>
        (∃ label, dict_get (V:=string) [] "Operation_Mode" = Some label
                  ∧ (label ∉ OPERATION_MODE_CHOICES) ∧ e = unknown_mode label)
        ∨ (∃ feat raw, feat ∈ FEATURES ∧ dict_get (V:=string) [] feat = Some raw
                       ∧ float_of_str raw = None ∧ e = float_error raw)
    | inr values =>
        length values = length FEATURES
        ∧ ∀ i feat, FEATURES !! i = Some feat → dict_get (V:=string) [] feat = None →
            values !! i =
              if decide (feat = "Operation_Mode") then Some (float_of_int 0)
              else float_of_str
                     (py_str (from_option id (PFloat (float_of_Q 0.0))
                                (DEFAULTS_FALLBACK sample_clock !! feat)))
    end.
Proof.
  split; [apply reach_init|].
  exact (absent_field_takes_default (Laws := int_float_laws)
           sample_clock (DEFAULTS_FALLBACK sample_clock) Alias [] (reach_init sample_clock)).
Defined.

Lemma scaler_fitted_on_all_rows_before_split_witness :
  DataProcessing.df processed_processing = Some sample_processed
  ∧ select sample_processed DataProcessing.FEATURES = inr sample_Xc
  ∧ get_col sample_processed "Efficiency_Status" = inr sample_y
  ∧ to_matrix (nrows sample_processed) sample_Xc = inr sample_X
  ∧ nrows sample_processed ≠ 0%nat
  ∧ ∃ st, fit (length DataProcessing.FEATURES) sample_X = inr st
          ∧ length sample_X = nrows sample_processed
          ∧ (DataProcessing.split_and_scale_and_save processed_processing).1 = inr tt.
Proof.
  assert (select sample_processed DataProcessing.FEATURES = inr sample_Xc) as Hsel
    by (vm_compute; reflexivity).
  assert (get_col sample_processed "Efficiency_Status" = inr sample_y) as Hy
    by (vm_compute; reflexivity).
  assert (to_matrix (nrows sample_processed) sample_Xc = inr sample_X) as Hmat
    by (vm_compute; reflexivity).
  assert (nrows sample_processed ≠ 0%nat) as Hrows by (simpl; lia).
  repeat (split; [done|]).
  destruct (scaler_fitted_on_all_rows_before_split
              processed_processing sample_processed sample_Xc sample_y sample_X
              eq_refl Hsel Hy Hmat Hrows) as (st & Hfit & Hlen & _ & Hrun).
  exists st. split; [exact Hfit|]. split; [exact Hlen|].
  rewrite Hrun. unfold train_test_split, model_selection.
  rewrite decide_True by (by rewrite length_fmap, Hlen).
  destruct (every_fifth 4 (transform_row st <$> sample_X)), (every_fifth 4 sample_y).
  reflexivity.
Defined.


Lemma zero_variance_scale_is_one_witness :
  ∃ st, fit 1 [[Some 5%Q]; [Some 5%Q]] = inr st
        ∧ scale_ st !! 0%nat = Some (Some 1%Q)
        ∧ ∃ m, mean_ st !! 0%nat = Some (Some m)
               ∧ transform_row st [Some 7%Q] !! 0%nat = Some (Some ((7 - m) / 1)%Q).
Proof.
  destruct (fit 1 [[Some 5%Q]; [Some 5%Q]]) as [e|st] eqn:Hfit; [discriminate Hfit|].
  exists st. split; [reflexivity|].
  destruct (zero_variance_scale_is_one 1 [[Some 5%Q]; [Some 5%Q]] st 0 5%Q)
    as (Hscale & m & Hmean & Hrow & _); [lia|done| |exact Hfit|].
  - intros row Hrow. exists 5%Q.
    repeat (apply elem_of_cons in Hrow as [->|Hrow]; [done|]).
    by apply elem_of_nil in Hrow.
  - split; [exact Hscale|]. exists m. split; [exact Hmean|].
    exact (proj1 (Hrow [Some 7%Q] 7%Q eq_refl)).
Defined.

(** With all training values equal to 5, the input 7 is transformed to 2,
    not to 0. *)
Lemma zero_variance_nonzero_output :
  ∃ st, fit 1 [[Some 5%Q]; [Some 5%Q]] = inr st
        ∧ ∃ r, transform_row st [Some 7%Q] !! 0%nat = Some (Some r)
               ∧ (r == 2)%Q ∧ ¬ (r == 0)%Q.
Proof.
  eexists. split; [reflexivity|]. eexists. split; [vm_compute; reflexivity|]. done.
Qed.

Lemma unparsable_timestamp_gives_missing_calendar_witness :
  to_datetime (VStr "not a date") = None
  ∧ ∃ s' d', DataProcessing.preprocess loaded_processing = (inr tt, s')
     ∧ DataProcessing.df s' = Some d'
     ∧ ∀ name, name ∈ ["Year"; "Month"; "Day"; "Hour"] →
         ∃ c, cols d' !! name = Some c ∧ c !! 1%nat = Some (VNum None).
Proof.
  split; [reflexivity|].
  apply (unparsable_timestamp_gives_missing_calendar loaded_processing sample_raw
           [VStr "2024-01-15 10:00:00"; VStr "not a date"] (nums [1; 2])
           ["Idle"; "Active"] ["Low"; "High"] 1 (VStr "not a date"));
    reflexivity.
Defined.

Lemma model_persisted_whatever_the_scores_witness :
  ModelTraining.load_data ready_training
    = (inr tt, (ModelTraining.load_data ready_training).2)
  ∧ ModelTraining.fs (ModelTraining.run ready_training).2
      !! path_join (ModelTraining.model_path (ModelTraining.load_data ready_training).2)
           "model.pkl"
    = Some (AEstimator (Some (VNum (Some 0%Q)))).
Proof.
  assert (ModelTraining.load_data ready_training
          = (inr tt, (ModelTraining.load_data ready_training).2)) as Hload
    by (vm_compute; reflexivity).
  split; [exact Hload|].
  apply (model_persisted_whatever_the_scores ready_training _
           (Some (VNum (Some 0%Q))) Hload).
  vm_compute. reflexivity.
Defined.

Lemma absent_operation_mode_is_idle_witness :
  dict_get [("Year", "2024")] "Operation_Mode" = None
  ∧ index (mk_request POST [("Year", "2024")]) NoFile (DEFAULTS_FALLBACK sample_clock)
    = index (mk_request POST [("Operation_Mode", "Idle"); ("Year", "2024")]) NoFile
        (DEFAULTS_FALLBACK sample_clock)
  ∧ ∀ h, deref (build [("Year", "2024")] FEATURES [] h).2 !! "Operation_Mode"
         = Some (PStr "Idle").
Proof.
  split; [reflexivity|].
  destruct (absent_operation_mode_is_idle [("Year", "2024")] NoFile
              (DEFAULTS_FALLBACK sample_clock) eq_refl) as (_ & Hidx & _ & Hderef & _).
  split; [exact Hidx|exact Hderef].
Defined.
End Instances.

(** * Further properties *)

(** ** The serving handler: defaults, aliasing and the order of features *)

Section ServingState.
Context {PF : PyFloat} {SA : ServingArtifacts}.
Import App AppSpec.

Lemma merge_item_lookup (merged : gmap string pyval) (kv : string * json) (k : string) :
  merge_item merged kv !! k =
    match merged !! k with
    | None => None
    | Some v => if decide (kv.1 = k) then Some (from_option id v (numeric kv.2)) else Some v
    end.
Proof.
  unfold merge_item. destruct kv as [k' j]. simpl.
  destruct (merged !! k') as [v'|] eqn:Hk'; destruct (numeric j) as [w|] eqn:Hj; simpl.
  - rewrite lookup_insert. case_decide; subst.
    + by rewrite Hk'.
    + by destruct (merged !! k).
  - destruct (merged !! k) eqn:Hk; [|done]. case_decide; by simplify_eq.
  - destruct (merged !! k) eqn:Hk; [|done]. case_decide; by simplify_eq.
  - destruct (merged !! k) eqn:Hk; [|done]. case_decide; by simplify_eq.
Qed.

Lemma merged_dom (items : list (string * json)) (G : gmap string pyval) (k : string) :
  is_Some (foldl merge_item G items !! k) ↔ is_Some (G !! k).
Proof.
  revert G. induction items as [|kv items IH]; intros G; [done|].
  simpl. rewrite IH, merge_item_lookup.
  destruct (G !! k); [|done]. case_decide; split; by eauto.
Qed.

Lemma dict_get_set (d : list (string * json)) (k k' : string) (j : json) :
  dict_get (dict_set d k j) k' = if decide (k = k') then Some j else dict_get d k'.
Proof.
  induction d as [|[k0 j0] d IH]; simpl.
  - by repeat case_decide.
  - destruct (decide (k0 = k)) as [->|Hne]; simpl.
    + by repeat case_decide.
    + rewrite IH. repeat case_decide; by simplify_eq.
Qed.

Lemma dict_set_NoDup (d : list (string * json)) (k : string) (j : json) :
  NoDup d.*1 → NoDup (dict_set d k j).*1.
Proof.
  induction d as [|[k0 j0] d IH]; simpl.
  - intros _. apply NoDup_singleton.
  - intros [Hk0 Hd]%NoDup_cons. destruct (decide (k0 = k)) as [->|Hne]; simpl.
    + by apply NoDup_cons.
    + apply NoDup_cons. split; [|by apply IH].
      apply dict_get_None. rewrite dict_get_set, decide_False by done.
      by apply dict_get_None.
Qed.

Lemma json_load_NoDup (members : list (string * json)) : NoDup (json_load members).*1.
Proof.
  unfold json_load.
  assert (NoDup ([] : list (string * json)).*1) as Hnil by apply NoDup_nil_2.
  revert Hnil. generalize ([] : list (string * json)).
  induction members as [|[k j] members IH]; intros d Hd; [done|].
  simpl. apply IH. by apply dict_set_NoDup.
Qed.

Lemma json_load_absent (members : list (string * json)) (k : string) :
  k ∉ members.*1 → dict_get (json_load members) k = None.
Proof.
  unfold json_load.
  assert (dict_get ([] : list (string * json)) k = None) as Hnil by done.
  revert Hnil. generalize ([] : list (string * json)).
  induction members as [|[k' j'] members IH]; intros d Hd Hk; [done|].
  rewrite fmap_cons in Hk. apply not_elem_of_cons in Hk as [Hne Hk].
  simpl. apply IH; [|done]. by rewrite dict_get_set, decide_False.
Qed.

Lemma json_load_last (before after : list (string * json)) (k : string) (j : json) :
  k ∉ after.*1 → dict_get (json_load (before ++ (k, j) :: after)) k = Some j.
Proof.
  intros Hk. unfold json_load. rewrite foldl_app. cbn [foldl fst snd].
  assert (dict_get (dict_set (foldl (fun d kv => dict_set d kv.1 kv.2) [] before) k j) k
          = Some j) as Hset by by rewrite dict_get_set, decide_True.
  revert Hset. generalize (dict_set (foldl (fun d kv => dict_set d kv.1 kv.2) [] before) k j).
  induction after as [|[k' j'] after IH]; intros d Hd; [done|].
  rewrite fmap_cons in Hk. apply not_elem_of_cons in Hk as [Hne Hk].
  simpl. apply IH; [done|]. by rewrite dict_get_set, decide_False.
Qed.

Lemma merged_lookup (items : list (string * json)) (G : gmap string pyval) (k : string) :
  NoDup items.*1 →
  foldl merge_item G items !! k =
    match G !! k with
    | None => None
    | Some d => Some (from_option id d (dict_get items k ≫= numeric))
    end.
Proof.
  revert G. induction items as [|[k' j'] items IH]; intros G Hnd.
  - simpl. by destruct (G !! k).
  - rewrite fmap_cons in Hnd. apply NoDup_cons in Hnd as [Hk' Hnd].
    simpl. rewrite IH by done. rewrite merge_item_lookup. simpl.
    destruct (G !! k) as [d|]; [|done].
    destruct (decide (k' = k)) as [->|Hne]; [|done].
    simpl in Hk'. apply dict_get_None in Hk'. by rewrite Hk'.
Qed.

(** X1.  With a well-formed means file [load_feature_means] returns a
    fresh dict that has exactly the keys of the defaults.  A key the file
    does not mention keeps its default.  For a key of the defaults that
    the file mentions, the last member of that name decides: its value is
    taken when it is a number, and the default is kept when it is not.
    Without the file, or with a malformed one, the module-level dict
    itself is returned. *)
Theorem merged_defaults_keep_keys
    (G : gmap string pyval) (members : list (string * json)) :
  load_feature_means G NoFile = Alias
  ∧ load_feature_means G Malformed = Alias
  ∧ ∃ merged, load_feature_means G (Means members) = Fresh merged
    ∧ (∀ k, is_Some (merged !! k) ↔ is_Some (G !! k))
    ∧ (∀ k, k ∉ members.*1 → merged !! k = G !! k)
    ∧ (∀ k j before after d,
         members = (before ++ (k, j) :: after)%list → k ∉ after.*1 → G !! k = Some d →
         merged !! k = Some (from_option id d (numeric j))).
Proof.
  split; [done|]. split; [done|]. eexists. split; [reflexivity|].
  split; [intros k; apply merged_dom|].
  split.
  - intros k Hk. rewrite merged_lookup by apply json_load_NoDup.
    rewrite json_load_absent by done. by destruct (G !! k).
  - intros k j before after d -> Hk HG.
    rewrite merged_lookup by apply json_load_NoDup.
    by rewrite HG, json_load_last.
Qed.

(** *** What the loop leaves in [form_values] and in the module-level dict *)

Lemma build_form_values (form : list (string * string)) (feats : list string)
    (values : list float) (h : hstate) :
  match form_values h, form_values (build form feats values h).2 with
  | Alias, Alias => True
  | Fresh _, Fresh _ => globals (build form feats values h).2 = globals h
  | _, _ => False
  end.
Proof.
  revert values h. induction feats as [|feat feats IH]; intros values h.
  - change (build form [] values h) with (@inr exn _ values, h).
    simpl. by destruct (form_values h).
  - rewrite build_cons, step_result.
    destruct (value_of form (globals h) feat) as [e|v];
      [simpl; by destruct (form_values h)|].
    specialize (IH (values ++ [v])%list (write_fv feat (entry_of form feat v) h).2).
    unfold write_fv, modify in *. simpl in *.
    destruct (form_values h); simpl in *; exact IH.
Qed.

Lemma build_alias (form : list (string * string)) (feats : list string)
    (values : list float) (h : hstate) :
  form_values h = Alias → form_values (build form feats values h).2 = Alias.
Proof.
  intros Hh. pose proof (build_form_values form feats values h) as Hfv.
  rewrite Hh in Hfv. by destruct (form_values (build form feats values h).2).
Qed.

Lemma build_fresh (form : list (string * string)) (feats : list string)
    (values : list float) (h : hstate) (m : gmap string pyval) :
  form_values h = Fresh m → globals (build form feats values h).2 = globals h.
Proof.
  intros Hh. pose proof (build_form_values form feats values h) as Hfv.
  rewrite Hh in Hfv. by destruct (form_values (build form feats values h).2).
Qed.

Lemma build_globals_ne (form : list (string * string)) (feats : list string)
    (k : string) (values : list float) (h : hstate) :
  k ∉ feats → globals (build form feats values h).2 !! k = globals h !! k.
Proof.
  revert values h. induction feats as [|feat feats IH]; intros values h Hk; [done|].
  apply not_elem_of_cons in Hk as [Hne Hk].
  rewrite build_cons, step_result.
  destruct (value_of form (globals h) feat) as [e|v]; [done|].
  rewrite IH by done. by apply globals_write_ne.
Qed.

Lemma build_deref_entry (form : list (string * string)) (feats : list string) :
  NoDup feats → ∀ (values : list float) (h : hstate) (feat : string),
  feat ∈ feats →
  (∃ vs, (build form feats values h).1 = inr vs) →
  ∃ v, value_of form (globals h) feat = inr v
       ∧ deref (build form feats values h).2 !! feat = Some (entry_of form feat v).
Proof.
  induction 1 as [|f feats Hnotin Hnd IH]; intros values h feat Hfeat Hok.
  - by apply elem_of_nil in Hfeat.
  - rewrite build_cons, step_result in Hok |- *.
    destruct (value_of form (globals h) f) as [e|v0] eqn:Hv0; [by destruct Hok|].
    destruct (decide (feat = f)) as [->|Hne].
    + exists v0. split; [done|]. rewrite build_deref_ne by done.
      apply deref_write_eq.
    + apply elem_of_cons in Hfeat as [?|Hfeat]; [done|].
      destruct (IH _ _ feat Hfeat Hok) as (v & Hv & Hd).
      exists v. split; [|done].
      rewrite <-Hv. apply value_of_agree. symmetry. by apply globals_write_ne.
Qed.

(** X2.  With a well-formed means file the handler works on a copy: no
    request changes the module-level dict. *)
Theorem means_file_shields_defaults
    (req : request) (items : list (string * json)) (G : gmap string pyval) :
  (index req (Means items) G).2 = G.
Proof.
  unfold index. simpl. destruct req as [[|] form].
  - by rewrite handler_get.
  - rewrite handler_post. simpl. rewrite predict_body_state.
    by rewrite (build_fresh _ _ _ _ (foldl merge_item G (json_load items))).
Qed.

(** X3.  Without a means file [form_values] is the module-level dict
    itself: a value accepted from one request stays in it, and a later
    request that omits the field is given that value, not the built-in
    default. *)
Theorem submitted_value_becomes_default
    (G : gmap string pyval) (form1 form2 : list (string * string)) (fv : fv_ref)
    (i : nat) (feat : string) (values1 values2 : list float) :
  FEATURES !! i = Some feat →
  feat ≠ "Operation_Mode" →
  (build form1 FEATURES [] (mk_hstate G Alias)).1 = inr values1 →
  dict_get form2 feat = None →
  (build form2 FEATURES []
     (mk_hstate (index (mk_request POST form1) NoFile G).2 fv)).1 = inr values2 →
  ∃ v, values1 !! i = Some v
       ∧ (index (mk_request POST form1) NoFile G).2 !! feat = Some (PFloat v)
       ∧ values2 !! i = float_of_str (str_of_float v).
Proof.
  intros Hi Hne Hb1 Hl2 Hb2.
  assert (feat ∈ FEATURES) as Hfeat by (apply list_elem_of_lookup; eauto).
  set (h0 := mk_hstate G Alias) in *.
  destruct (build_deref_entry form1 FEATURES FEATURES_NoDup [] h0 feat Hfeat)
    as (v & Hv & Hd); [by eexists|].
  destruct (build_inr form1 h0 values1 Hb1) as [_ Hvals1].
  destruct (Hvals1 i feat Hi) as (v' & Hv1 & Hv').
  rewrite Hv in Hv'. injection Hv' as <-.
  assert ((index (mk_request POST form1) NoFile G).2 !! feat = Some (PFloat v)) as HG1.
  { unfold index. rewrite handler_post. simpl. rewrite predict_body_state.
    fold h0. unfold deref in Hd.
    rewrite (build_alias form1 FEATURES [] h0 eq_refl) in Hd.
    rewrite Hd. unfold entry_of. by rewrite decide_False. }
  exists v. split; [done|]. split; [done|].
  remember (index (mk_request POST form1) NoFile G).2 as G1 eqn:HG1def. clear HG1def.
  destruct (build_inr form2 _ values2 Hb2) as [_ Hvals2].
  destruct (Hvals2 i feat Hi) as (w & -> & Hw). simpl in Hw.
  rewrite (value_of_numeric_absent form2 _ feat Hne Hl2), HG1 in Hw. simpl in Hw.
  destruct (float_of_str (str_of_float v)); by simplify_eq.
Qed.

(** X4.  The handler writes only under feature names: every other key of
    the module-level dict is left as it was, whatever the request. *)
Theorem handler_writes_feature_keys_only
    (req : request) (file : means_file) (G : gmap string pyval) (k : string) :
  k ∉ FEATURES → (index req file G).2 !! k = G !! k.
Proof.
  intros Hk. unfold index. simpl. destruct req as [[|] form].
  - by rewrite handler_get.
  - rewrite handler_post. simpl. rewrite predict_body_state.
    by rewrite build_globals_ne.
Qed.

(** X5.  When the loop succeeds the vector has one value per feature, in
    the order of the training schema: the position of a submitted numeric
    field holds its parsed value and position 0 holds the code of the
    submitted operation mode. *)
Theorem vector_follows_training_order
    (form : list (string * string)) (h : hstate) (values : list float) :
  (build form FEATURES [] h).1 = inr values →
  length values = length DataProcessing.FEATURES
  ∧ (∀ i feat raw, DataProcessing.FEATURES !! i = Some feat →
       feat ≠ "Operation_Mode" → dict_get form feat = Some raw →
       values !! i = float_of_str raw)
  ∧ (∀ label, dict_get form "Operation_Mode" = Some label →
       values !! 0%nat = float_of_int <$> dict_get OPERATION_MODE_MAP label).
Proof.
  intros Hb. destruct (build_inr form h values Hb) as [Hlen Hvals].
  split; [exact Hlen|]. split.
  - intros i feat raw Hi Hne Hl. destruct (Hvals i feat Hi) as (v & -> & Hv).
    rewrite (value_of_numeric_present form _ feat raw Hne Hl) in Hv.
    destruct (float_of_str raw); by simplify_eq.
  - intros label Hl. destruct (Hvals 0%nat "Operation_Mode" eq_refl) as (v & -> & Hv).
    rewrite (value_of_mode_present form _ label Hl) in Hv.
    destruct (dict_get OPERATION_MODE_MAP label); by simplify_eq.
Qed.

(** X6.  A class index outside [LABELS] is not an error: the response
    carries the string ["Unknown (<index>)"]. *)
Theorem unknown_class_index_is_labelled
    (form : list (string * string)) (file : means_file) (G : gmap string pyval)
    (values scaled_array : list float) (pred_idx : Z) :
  (build form FEATURES [] (mk_hstate G (load_feature_means G file))).1 = inr values →
  scaler_transform values = inr scaled_array →
  model_predict scaled_array = inr pred_idx →
  ¬ (0 <= pred_idx <= 2) →
  ∃ r G', index (mk_request POST form) file G = (inr r, G')
          ∧ prediction r = Some ("Unknown (" ++ str_of_int pred_idx ++ ")").
Proof.
  intros Hb Hs Hm Hidx. unfold index. rewrite handler_post. simpl.
  eexists _, _. split; [reflexivity|]. simpl.
  rewrite predict_body_result, Hb, Hs, Hm. f_equal.
  unfold label_of, LABELS. simpl.
  repeat (case_decide; [lia|]). done.
Qed.

(** X7.  When the operation mode is absent or known and exactly one
    submitted numeric value does not parse, that value's conversion error
    is what the response reports. *)
Theorem unparsable_value_is_reported {Laws : PyFloatLaws}
    (now : clock) (G : gmap string pyval) (file : means_file)
    (form : list (string * string)) (feat raw : string) :
  reachable now G →
  (∀ label, dict_get form "Operation_Mode" = Some label → label ∈ OPERATION_MODE_CHOICES) →
  feat ∈ FEATURES → feat ≠ "Operation_Mode" →
  dict_get form feat = Some raw → float_of_str raw = None →
  (∀ f raw', f ≠ feat → f ≠ "Operation_Mode" → dict_get form f = Some raw' →
     is_Some (float_of_str raw')) →
  ∃ r G', index (mk_request POST form) file G = (inr r, G')
          ∧ prediction r
            = Some ("Error: could not convert string to float: " ++ py_repr raw).
Proof.
  intros Hnum%reachable_numeric Hmode Hfeat Hne Hraw Hbad Hothers.
  unfold index. rewrite handler_post. simpl.
  eexists _, _. split; [reflexivity|]. simpl. rewrite predict_body_result.
  set (h0 := mk_hstate G (load_feature_means G file)).
  rewrite (build_result form FEATURES FEATURES_NoDup [] h0). simpl globals.
  destruct (collect form G FEATURES) as [e|vs] eqn:Hc.
  - apply collect_inl in Hc as (f & Hf & Hv).
    destruct (decide (f = "Operation_Mode")) as [->|Hf_ne].
    + destruct (dict_get form "Operation_Mode") as [label|] eqn:Hl.
      * rewrite (value_of_mode_present form G label Hl) in Hv.
        destruct (dict_get OPERATION_MODE_MAP label) eqn:Hm; [done|].
        apply dict_get_mode_None in Hm. destruct Hm. by apply Hmode.
      * by rewrite (value_of_mode_absent form G Hl) in Hv.
    + destruct (dict_get form f) as [raw'|] eqn:Hl.
      * rewrite (value_of_numeric_present form G f raw' Hf_ne Hl) in Hv.
        destruct (decide (f = feat)) as [->|Hff].
        -- rewrite Hraw in Hl. injection Hl as <-. rewrite Hbad in Hv.
           by injection Hv as <-.
        -- destruct (Hothers f raw' Hff Hf_ne Hl) as [x Hx]. by rewrite Hx in Hv.
      * rewrite (value_of_numeric_absent form G f Hf_ne Hl) in Hv.
        destruct (default_parses G f Hf_ne Hnum) as [x Hx]. by rewrite Hx in Hv.
  - apply collect_inr in Hc as [_ Hvs].
    apply list_elem_of_lookup in Hfeat as [i Hi].
    destruct (Hvs i feat Hi) as (v & _ & Hv).
    rewrite (value_of_numeric_present form G feat raw Hne Hraw), Hbad in Hv. done.
Qed.
End ServingState.

(** ** Data processing: loading, column bookkeeping and failure modes *)

Section MonadInversion.
Context {S : Type}.

Lemma bind_inr_inv {A B} (c : M S A) (k : A → M S B) (s s' : S) (b : B) :
  (c ≫= k) s = (inr b, s') → ∃ a s1, c s = (inr a, s1) ∧ k a s1 = (inr b, s').
Proof.
  unfold mbind, M_bind, Py.bind. destruct (c s) as [[e|a] s1]; [done|]. eauto.
Qed.

Lemma lift_inr_inv {A} (r : exn + A) (s s' : S) (a : A) :
  lift r s = (inr a, s') → r = inr a ∧ s' = s.
Proof. unfold lift. by intros [= -> ->]. Qed.

(** A block whose handler re-raises returns only what its body returns. *)
Lemma try_except_wrap_inr {A} (c : M S A) (f : exn → exn) (s s' : S) (a : A) :
  try_except c (fun e => raise (f e)) s = (inr a, s') → c s = (inr a, s').
Proof. unfold try_except, raise. by destruct (c s) as [[e|a'] s1]. Qed.

Lemma try_except_wrap_inl {A} (c : M S A) (f : exn → exn) (s s' : S) (e : exn) :
  try_except c (fun e => raise (f e)) s = (inl e, s') →
  ∃ e', c s = (inl e', s') ∧ e = f e'.
Proof.
  unfold try_except, raise. destruct (c s) as [[e'|a'] s1]; [|done].
  intros [= <- <-]. eauto.
Qed.
End MonadInversion.

Section ProcessingMore.
Context `{Numeric} `{Pandas} `{ModelSelection} `{Classifier}.
Import DataProcessing.

(** X8.  When the input file does not exist, [run] stops in [load_data]
    with [CustomException] around the file error: the object and the files
    are left as they were, and no later stage runs. *)
Theorem run_stops_on_missing_input (s : state) :
  fs s !! input_path s = None →
  run s = (inl (CustomException "Failed to load data"
                  (FileNotFoundError (input_path s))), s).
Proof.
  intros Hfile. unfold run. apply bind_inl. unfold load_data.
  erewrite try_except_inl; [reflexivity|].
  apply bind_inl. unfold lift, read_csv. by rewrite Hfile.
Qed.

(** The frame left by [preprocess] on a loaded raw frame. *)
Lemma preprocess_frame
    (s : state) (d : dataframe) (ts mid : list val) (om es : list string) :
  df s = Some d →
  cols d !! "Timestamp" = Some ts →
  cols d !! "Machine_ID" = Some mid →
  cols d !! "Operation_Mode" = Some (VStr <$> om) →
  cols d !! "Efficiency_Status" = Some (VStr <$> es) →
  ∃ d', preprocess s = (inr tt, set_df (Some d') s)
    ∧ nrows d' = nrows d
    ∧ cols d' !! "Timestamp" = None
    ∧ cols d' !! "Machine_ID" = None
    ∧ (∀ k, k ∉ ["Timestamp"; "Machine_ID"; "Operation_Mode"; "Efficiency_Status";
                 "Year"; "Month"; "Day"; "Hour"] →
         cols d' !! k = cols d !! k)
    ∧ (∀ name, name ∈ ["Year"; "Month"; "Day"; "Hour"] →
         ∃ c, cols d' !! name = Some c ∧ length c = length ts).
Proof.
  intros Hdf Hts Hmid Hom Hes.
  destruct (encode_VStr es) as (ces & _ & Hces).
  destruct (encode_VStr om) as (com & _ & Hcom).
  unfold preprocess, preprocess_body.
  eexists. split; [|split; [|split; [|split; [|split]]]].
  - erewrite try_except_inr; [reflexivity|].
    erewrite bind_inr; [|unfold require_df; erewrite bind_inr by reflexivity;
                          simpl; by rewrite Hdf].
    erewrite update_df_bind; [|exact Hdf|by rewrite (get_col_Some _ _ _ Hts)].
    erewrite update_df_bind; [|reflexivity|].
    2:{ erewrite get_col_Some; [reflexivity|]. simpl. by simplify_map_eq. }
    erewrite update_df_bind; [|reflexivity|].
    2:{ erewrite get_col_Some; [reflexivity|]. simpl. by simplify_map_eq. }
    unfold derive.
    do 4 (erewrite update_df_bind; [|reflexivity|];
      [|erewrite get_col_Some; [|simpl; by simplify_map_eq];
        simpl; rewrite dt_parsed; reflexivity]).
    erewrite update_df_bind; [|reflexivity|].
    2:{ rewrite drop_present; [reflexivity|]. intros n Hn.
        repeat (apply elem_of_cons in Hn as [->|Hn]);
          [..|by apply elem_of_nil in Hn]; simpl; by simplify_map_eq. }
    erewrite update_df_bind; [|reflexivity|].
    2:{ erewrite get_col_Some; [|simpl; by simplify_map_eq].
        simpl. rewrite Hces. reflexivity. }
    erewrite update_df_last; [|reflexivity|].
    2:{ erewrite get_col_Some; [|simpl; by simplify_map_eq].
        simpl. rewrite Hcom. reflexivity. }
    reflexivity.
  - reflexivity.
  - simpl. by simplify_map_eq.
  - simpl. by simplify_map_eq.
  - intros k Hk. simpl.
    repeat (apply not_elem_of_cons in Hk as [? Hk]).
    by simplify_map_eq.
  - intros name Hname. simpl.
    repeat (apply elem_of_cons in Hname as [->|Hname]);
      [..|by apply elem_of_nil in Hname];
      (eexists; split; [by simplify_map_eq|by rewrite !length_fmap]).
Qed.

(** X9.  On a loaded raw frame [preprocess] succeeds; it removes the
    [Timestamp] and [Machine_ID] columns, adds the four calendar columns
    with one value per record, keeps the number of records, and leaves
    every other column (the telemetry) exactly as it was. *)
Theorem preprocess_drops_identifiers
    (s : state) (d : dataframe) (ts mid : list val) (om es : list string) :
  df s = Some d →
  cols d !! "Timestamp" = Some ts →
  cols d !! "Machine_ID" = Some mid →
  cols d !! "Operation_Mode" = Some (VStr <$> om) →
  cols d !! "Efficiency_Status" = Some (VStr <$> es) →
  ∃ d', preprocess s = (inr tt, set_df (Some d') s)
    ∧ nrows d' = nrows d
    ∧ cols d' !! "Timestamp" = None
    ∧ cols d' !! "Machine_ID" = None
    ∧ (∀ k, k ∉ ["Timestamp"; "Machine_ID"; "Operation_Mode"; "Efficiency_Status";
                 "Year"; "Month"; "Day"; "Hour"] →
         cols d' !! k = cols d !! k)
    ∧ (∀ name, name ∈ ["Year"; "Month"; "Day"; "Hour"] →
         ∃ c, cols d' !! name = Some c ∧ length c = length ts).
Proof. apply preprocess_frame. Qed.

Lemma preprocess_without_timestamp (s : state) (d : dataframe) :
  df s = Some d → cols d !! "Timestamp" = None →
  preprocess s =
    (inl (CustomException "Failed to preprocess data" (KeyError "Timestamp")), s).
Proof.
  intros Hdf Hts. unfold preprocess, preprocess_body.
  erewrite try_except_inl; [reflexivity|].
  erewrite bind_inr; [|unfold require_df; erewrite bind_inr by reflexivity;
                        simpl; by rewrite Hdf].
  apply bind_inl. unfold update_df.
  erewrite bind_inr by reflexivity. simpl. rewrite Hdf.
  apply bind_inl. unfold lift, get_col. by rewrite Hts.
Qed.

(** X10.  [preprocess] is not repeatable: called again on the object it
    has just processed, it fails on the dropped [Timestamp] column and
    leaves the processed frame untouched. *)
Theorem preprocess_twice_fails
    (s : state) (d : dataframe) (ts mid : list val) (om es : list string) :
  df s = Some d →
  cols d !! "Timestamp" = Some ts →
  cols d !! "Machine_ID" = Some mid →
  cols d !! "Operation_Mode" = Some (VStr <$> om) →
  cols d !! "Efficiency_Status" = Some (VStr <$> es) →
  (preprocess s).1 = inr tt
  ∧ preprocess (preprocess s).2 =
      (inl (CustomException "Failed to preprocess data" (KeyError "Timestamp")),
       (preprocess s).2).
Proof.
  intros Hdf Hts Hmid Hom Hes.
  destruct (preprocess_frame s d ts mid om es Hdf Hts Hmid Hom Hes)
    as (d' & -> & _ & Hgone & _).
  split; [done|]. simpl. by apply (preprocess_without_timestamp _ d').
Qed.

Lemma absent_spec (d : dataframe) (names : list string) (n : string) :
  n ∈ absent d names ↔ n ∈ names ∧ cols d !! n = None.
Proof. unfold absent. rewrite list_elem_of_filter. tauto. Qed.

Lemma remove_dups_NoDup (l : list string) : NoDup l → remove_dups l = l.
Proof.
  induction 1 as [|x l Hx Hl IH]; [done|].
  simpl. rewrite IH. by destruct (decide_rel elem_of x l).
Qed.

(** X11.  When a feature column is missing from the frame (as on a frame
    that was loaded but not preprocessed), [split_and_scale_and_save]
    fails with the [KeyError] of the selection [df[features]], wrapped in
    [CustomException]; [self.features] is set, no file is written and the
    frame is unchanged.  The error names all the absent features, in the
    order of the feature list, when at least one feature is a column. *)
Theorem split_fails_on_missing_feature (s : state) (d : dataframe) (name : string) :
  df s = Some d →
  name ∈ FEATURES → cols d !! name = None →
  split_and_scale_and_save s =
    (inl (CustomException "Failed to split, scale, and save data"
            (KeyError (not_in_index FEATURES (absent d FEATURES)))),
     set_features (Some FEATURES) s)
  ∧ (∀ n, n ∈ absent d FEATURES ↔ n ∈ FEATURES ∧ cols d !! n = None)
  ∧ (∀ present, present ∈ FEATURES → is_Some (cols d !! present) →
       not_in_index FEATURES (absent d FEATURES) =
         repr_names (absent d FEATURES) ++ " not in index").
Proof.
  intros Hdf Hname Hnone.
  split; [|split].
  - unfold split_and_scale_and_save, split_and_scale_and_save_body.
    erewrite try_except_inl; [reflexivity|].
    erewrite bind_inr; [|unfold require_df; erewrite bind_inr by reflexivity;
                          simpl; by rewrite Hdf].
    erewrite bind_inr by reflexivity.
    apply bind_inl. unfold lift, select.
    assert (name ∈ absent d FEATURES) as Hin by by apply absent_spec.
    destruct (absent d FEATURES); [by apply elem_of_nil in Hin|done].
  - intros n. apply absent_spec.
  - intros present Hp [c Hc]. unfold not_in_index.
    assert (NoDup FEATURES) as Hnd by (apply (bool_decide_unpack _); vm_compute; exact I).
    rewrite decide_False.
    + rewrite remove_dups_NoDup, reverse_involutive; [done|].
      rewrite reverse_Permutation. unfold absent. by apply NoDup_filter.
    + intros Hlen.
      assert (¬ cols d !! present = None) as Hpres by congruence.
      pose proof (length_filter_lt (fun n => cols d !! n = None) FEATURES present Hp Hpres)
        as Hlt.
      unfold absent in Hlen. lia.
Qed.

(** X12.  On a frame with all columns but no record, the scaler rejects
    the empty array: [split_and_scale_and_save] fails with a [ValueError]
    wrapped in [CustomException] and writes no file. *)
Theorem split_fails_on_empty_frame
    (s : state) (d : dataframe) (Xc : list (list val)) (y : list val) :
  df s = Some d →
  select d FEATURES = inr Xc →
  get_col d "Efficiency_Status" = inr y →
  nrows d = 0%nat →
  ∃ msg, split_and_scale_and_save s =
    (inl (CustomException "Failed to split, scale, and save data" (ValueError msg)),
     set_features (Some FEATURES) s).
Proof.
  intros Hdf Hsel Hy Hrows. eexists.
  unfold split_and_scale_and_save, split_and_scale_and_save_body.
  erewrite try_except_inl; [reflexivity|].
  erewrite bind_inr; [|unfold require_df; erewrite bind_inr by reflexivity;
                        simpl; by rewrite Hdf].
  erewrite bind_inr by reflexivity.
  erewrite bind_inr; [|unfold lift; by rewrite Hsel].
  erewrite bind_inr; [|unfold lift; by rewrite Hy].
  apply bind_inl. unfold lift. rewrite Hrows. reflexivity.
Qed.

(** What a successful [split_and_scale_and_save] leaves. *)
Lemma split_success (s s' : state) :
  split_and_scale_and_save s = (inr tt, s') →
  ∃ (st : ScalerState) (X_train X_test : matrix) (y_train y_test : list val),
    let file := path_join (output_path s) in
    s' = set_fs (<[file "scaler.pkl" := AScaler st]>
                 (<[file "y_test.pkl" := ASeries y_test]>
                  (<[file "y_train.pkl" := ASeries y_train]>
                   (<[file "X_test.pkl" := AArray X_test]>
                    (<[file "X_train.pkl" := AArray X_train]> (fs s))))))
                (set_features (Some FEATURES) s).
Proof.
  intros Hrun%try_except_wrap_inr.
  unfold split_and_scale_and_save_body in Hrun.
  apply bind_inr_inv in Hrun as (d & s1 & Hreq & Hrun).
  assert (s1 = s) as ->.
  { unfold require_df, mbind, M_bind, Py.bind, gets in Hreq. simpl in Hreq.
    destruct (df s); unfold mret, M_ret, Py.ret, raise in Hreq; by simplify_eq. }
  apply bind_inr_inv in Hrun as ([] & s1 & [= <-] & Hrun).
  apply bind_inr_inv in Hrun as (Xc & s1 & Hsel & Hrun).
  apply lift_inr_inv in Hsel as [_ ->].
  apply bind_inr_inv in Hrun as (y & s1 & Hy & Hrun).
  apply lift_inr_inv in Hy as [_ ->].
  apply bind_inr_inv in Hrun as ([st Xs] & s1 & Hfit & Hrun).
  apply lift_inr_inv in Hfit as [_ ->].
  apply bind_inr_inv in Hrun as ([[[X_train X_test] y_train] y_test] & s1 & Hsplit & Hrun).
  apply lift_inr_inv in Hsplit as [_ ->].
  exists st, X_train, X_test, y_train, y_test.
  unfold dump, mbind, M_bind, Py.bind, modify in Hrun. simpl in Hrun.
  by injection Hrun as <-.
Qed.
End ProcessingMore.

(** ** Paths of the persisted artefacts *)

Section Paths.

Lemma string_app_assoc (a b c : string) : ((a ++ b) ++ c = a ++ b ++ c)%string.
Proof.
  induction a as [|x a IH]; [done|].
  change (String x ((a ++ b) ++ c) = String x (a ++ b ++ c))%string. by rewrite IH.
Qed.

(** Joining a directory with one of the artefact names puts one fixed
    prefix in front of the name. *)
Lemma path_join_prefix (a : string) :
  ∃ pre, ∀ n, n ∈ artefact_names → path_join a n = (pre ++ n)%string.
Proof.
  unfold path_join. destruct (String.rev a) as [|c r].
  - exists EmptyString. intros n Hn.
    repeat (apply elem_of_cons in Hn as [->|Hn]; [reflexivity|]).
    by apply elem_of_nil in Hn.
  - destruct (decide (c = "/"%char)) as [->|Hc].
    + exists a. intros n Hn.
      repeat (apply elem_of_cons in Hn as [->|Hn]; [reflexivity|]).
      by apply elem_of_nil in Hn.
    + exists (a ++ "/")%string. intros n Hn.
      destruct c as [[] [] [] [] [] [] [] []]; try done;
        repeat (apply elem_of_cons in Hn as [->|Hn];
                [by rewrite string_app_assoc|]);
        by apply elem_of_nil in Hn.
Qed.

Lemma path_join_inj (a n1 n2 : string) :
  n1 ∈ artefact_names → n2 ∈ artefact_names →
  path_join a n1 = path_join a n2 → n1 = n2.
Proof.
  intros H1 H2. destruct (path_join_prefix a) as [pre Hpre].
  rewrite (Hpre n1 H1), (Hpre n2 H2). apply (inj (String.app pre)).
Qed.
End Paths.

(** ** From data processing to training *)

Section Handover.
Context `{Numeric} `{Pandas} `{ModelSelection} `{Metrics}.

(** X13.  A successful [split_and_scale_and_save] leaves the frame as it
    was, records the feature list, puts a file under each of the five
    artefact names, and touches no other file. *)
Theorem split_writes_five_artefacts (s s' : DataProcessing.state) :
  DataProcessing.split_and_scale_and_save s = (inr tt, s') →
  DataProcessing.df s' = DataProcessing.df s
  ∧ DataProcessing.features s' = Some DataProcessing.FEATURES
  ∧ (∀ n, n ∈ artefact_names →
       is_Some (DataProcessing.fs s' !! path_join (DataProcessing.output_path s) n))
  ∧ (∀ k, (∀ n, n ∈ artefact_names → k ≠ path_join (DataProcessing.output_path s) n) →
       DataProcessing.fs s' !! k = DataProcessing.fs s !! k).
Proof.
  intros (st & X_train & X_test & y_train & y_test & Hs')%split_success.
  cbv zeta in Hs'.
  remember (path_join (DataProcessing.output_path s)) as file eqn:Hfile.
  subst s'. split; [done|]. split; [done|]. simpl. split.
  - intros n Hn. unfold artefact_names in Hn.
    repeat (apply elem_of_cons in Hn as [->|Hn];
            [rewrite !lookup_insert_is_Some'; by auto 10|]).
    by apply elem_of_nil in Hn.
  - intros k Hk.
    rewrite !lookup_insert_ne; [done|..]; apply not_eq_sym, Hk;
      unfold artefact_names; set_solver.
Qed.

(** X14.  What data processing writes is what training loads: after a
    successful [split_and_scale_and_save], [load_data] of a training object
    whose directory leads to the same files succeeds, and its four
    attributes are the stored partitions. *)
Theorem training_loads_written_partitions
    (s s' : DataProcessing.state) (processed model : string) :
  DataProcessing.split_and_scale_and_save s = (inr tt, s') →
  (∀ n, n ∈ artefact_names →
     path_join processed n = path_join (DataProcessing.output_path s) n) →
  ∃ (X_train X_test : matrix) (y_train y_test : list val),
    let file := path_join (DataProcessing.output_path s) in
    DataProcessing.fs s' !! file "X_train.pkl" = Some (AArray X_train)
    ∧ DataProcessing.fs s' !! file "X_test.pkl" = Some (AArray X_test)
    ∧ DataProcessing.fs s' !! file "y_train.pkl" = Some (ASeries y_train)
    ∧ DataProcessing.fs s' !! file "y_test.pkl" = Some (ASeries y_test)
    ∧ ModelTraining.load_data (ModelTraining.init processed model (DataProcessing.fs s'))
      = (inr tt,
         ModelTraining.mk_state processed model None
           (Some (AArray X_train)) (Some (AArray X_test))
           (Some (ASeries y_train)) (Some (ASeries y_test))
           (DataProcessing.fs s') []).
Proof.
  intros (st & X_train & X_test & y_train & y_test & Hs')%split_success Hdir.
  cbv zeta in Hs'.
  exists X_train, X_test, y_train, y_test. cbv zeta.
  assert (∀ n1 n2, n1 ∈ artefact_names → n2 ∈ artefact_names → n1 ≠ n2 →
            path_join (DataProcessing.output_path s) n1
            ≠ path_join (DataProcessing.output_path s) n2) as Hne.
  { intros n1 n2 Hn1 Hn2 Hn Heq. by apply Hn, (path_join_inj (DataProcessing.output_path s)). }
  remember (path_join (DataProcessing.output_path s)) as o eqn:Ho.
  rename Hdir into Hdir'. clear Ho. subst s'. simpl.
  set (files := <[o "scaler.pkl" := AScaler st]> _).
  assert (files !! o "X_train.pkl" = Some (AArray X_train)) as Hf1.
  { unfold files.
    do 4 rewrite lookup_insert_ne
      by (apply Hne; [unfold artefact_names; set_solver..|done]).
    by rewrite lookup_insert_eq. }
  assert (files !! o "X_test.pkl" = Some (AArray X_test)) as Hf2.
  { unfold files.
    do 3 rewrite lookup_insert_ne
      by (apply Hne; [unfold artefact_names; set_solver..|done]).
    by rewrite lookup_insert_eq. }
  assert (files !! o "y_train.pkl" = Some (ASeries y_train)) as Hf3.
  { unfold files.
    do 2 rewrite lookup_insert_ne
      by (apply Hne; [unfold artefact_names; set_solver..|done]).
    by rewrite lookup_insert_eq. }
  assert (files !! o "y_test.pkl" = Some (ASeries y_test)) as Hf4.
  { unfold files.
    do 1 rewrite lookup_insert_ne
      by (apply Hne; [unfold artefact_names; set_solver..|done]).
    by rewrite lookup_insert_eq. }
  repeat (split; [done|]).
  unfold ModelTraining.load_data.
  erewrite try_except_inr; [reflexivity|].
  assert (∀ n a (st0 : ModelTraining.state),
            n ∈ artefact_names →
            ModelTraining.processed_path st0 = processed →
            ModelTraining.fs st0 = files →
            files !! o n = Some a →
            ModelTraining.load n st0 = (inr a, st0)) as Hload.
  { intros n a st0 Hn Hp Hf Ha. unfold ModelTraining.load.
    erewrite bind_inr by reflexivity. simpl. rewrite Hp, Hf, (Hdir' n Hn), Ha.
    reflexivity. }
  erewrite bind_inr; [|apply Hload; [unfold artefact_names; set_solver|done..]].
  erewrite bind_inr by reflexivity.
  erewrite bind_inr; [|apply Hload; [unfold artefact_names; set_solver|done..]].
  erewrite bind_inr by reflexivity.
  erewrite bind_inr; [|apply Hload; [unfold artefact_names; set_solver|done..]].
  erewrite bind_inr by reflexivity.
  erewrite bind_inr; [|apply Hload; [unfold artefact_names; set_solver|done..]].
  erewrite bind_inr by reflexivity.
  erewrite bind_inr by reflexivity.
  erewrite bind_inr by reflexivity.
  reflexivity.
Qed.
End Handover.

(** ** Model training: loading and evaluation *)

Section TrainingMore.
Context `{Metrics}.
Import ModelTraining.

(** X15.  [load_data] stops at the first missing file: with [X_train.pkl]
    present and [X_test.pkl] absent, [run] fails with [CustomException]
    around the file error, [X_train] stays loaded, and neither training nor
    any write takes place. *)
Theorem run_stops_at_first_missing_file (s : state) (a : artifact estimator) :
  fs s !! path_join (processed_path s) "X_train.pkl" = Some a →
  fs s !! path_join (processed_path s) "X_test.pkl" = None →
  run s =
    (inl (CustomException "Failed to load processed data"
            (FileNotFoundError (path_join (processed_path s) "X_test.pkl"))),
     set_X_train (Some a) s).
Proof.
  intros Ha Hnone. unfold run. apply bind_inl. unfold load_data.
  erewrite try_except_inl; [reflexivity|].
  erewrite bind_inr; [|unfold load; erewrite bind_inr by reflexivity;
                        unfold id; by rewrite Ha].
  erewrite bind_inr by reflexivity.
  apply bind_inl. unfold load.
  erewrite bind_inr by reflexivity. unfold id.
  change (fs (set_X_train (Some a) s)) with (fs s).
  change (processed_path (set_X_train (Some a) s)) with (processed_path s).
  by rewrite Hnone.
Qed.


(** X17.  A failed [train_model] leaves the unfitted estimator in
    [self.clf], so the guard of [evaluate_model] no longer applies: a
    following [evaluate_model] calls [predict] on that estimator, and when
    [predict] raises, that error is the one reported. *)
Theorem failed_training_bypasses_evaluation_guard (s : state) (e e' : exn) :
  estimator_fit (LogisticRegression 42 1000) (X_train s) (y_train s) = inl e →
  estimator_predict (LogisticRegression 42 1000) (X_test s) = inl e' →
  train_model s =
    (inl (CustomException "Failed to train model" e),
     set_clf (Some (LogisticRegression 42 1000)) s)
  ∧ evaluate_model (train_model s).2 =
    (inl (CustomException "Failed to evaluate model" e'), (train_model s).2).
Proof.
  intros Hfit Hpred.
  assert (train_model s =
            (inl (CustomException "Failed to train model" e),
             set_clf (Some (LogisticRegression 42 1000)) s)) as Htrain.
  { unfold train_model. erewrite try_except_inl; [reflexivity|].
    erewrite bind_inr by reflexivity. erewrite bind_inr by reflexivity.
    apply bind_inl. unfold lift. simpl. by rewrite Hfit. }
  split; [exact Htrain|]. rewrite Htrain. simpl.
  unfold evaluate_model. erewrite try_except_inl; [reflexivity|].
  erewrite bind_inr by reflexivity. simpl.
  erewrite bind_inr by reflexivity.
  apply bind_inl. unfold lift. simpl. by rewrite Hpred.
Qed.
End TrainingMore.

(** ** The label encoder, continued *)

Section EncodingMore.

(** X18.  The encoding is injective: two records get the same code exactly
    when they carry the same label. *)
Theorem label_codes_injective (y : list string) (codes : list Z) (i j : nat) (a b : string) :
  LabelEncoder.fit_transform y = inr codes →
  y !! i = Some a → y !! j = Some b →
  codes !! i = codes !! j ↔ a = b.
Proof.
  intros Hft Hi Hj.
  destruct (transform_total (LabelEncoder.classes_ y) y) as (codes' & Ht & _ & Hcodes).
  { intros l. apply classes_elem. }
  unfold LabelEncoder.fit_transform in Hft. rewrite Ht in Hft. injection Hft as <-.
  destruct (Hcodes i a Hi) as (ka & Hka & Ha).
  destruct (Hcodes j b Hj) as (kb & Hkb & Hb).
  rewrite Hka, Hkb. split.
  - intros [= Hk%Nat2Z.inj]. subst kb.
    apply index_of_Some in Ha, Hb. congruence.
  - intros <-. congruence.
Qed.
End EncodingMore.

(** ** The further properties on concrete data *)

Section MoreInstances.
Import Reference MoreSamples App AppSpec.

Lemma submitted_value_becomes_default_witness :
  FEATURES !! 1%nat = Some "Temperature_C"
  ∧ (build form_with_temperature FEATURES []
       (mk_hstate (DEFAULTS_FALLBACK sample_clock) Alias)).1
    = inr [0; 70; 50; 35; 15; 0; 1; 120; 55; 0; 2024; 1; 15; 10]
  ∧ ∃ v, ([0; 70; 50; 35; 15; 0; 1; 120; 55; 0; 2024; 1; 15; 10] : list Z) !! 1%nat = Some v
         ∧ (index (mk_request POST form_with_temperature) NoFile
              (DEFAULTS_FALLBACK sample_clock)).2 !! "Temperature_C" = Some (PFloat v)
         ∧ ([0; 70; 50; 35; 15; 0; 1; 120; 55; 0; 2024; 1; 15; 10] : list Z) !! 1%nat
           = float_of_str (str_of_float v).
Proof.
  split; [reflexivity|].
  assert ((build form_with_temperature FEATURES []
             (mk_hstate (DEFAULTS_FALLBACK sample_clock) Alias)).1
          = inr [0; 70; 50; 35; 15; 0; 1; 120; 55; 0; 2024; 1; 15; 10]) as Hb1
    by (vm_compute; reflexivity).
  split; [exact Hb1|].
  apply (submitted_value_becomes_default (PF := int_float) (SA := serving)
           (DEFAULTS_FALLBACK sample_clock)
           form_with_temperature [] Alias 1 "Temperature_C"
           [0; 70; 50; 35; 15; 0; 1; 120; 55; 0; 2024; 1; 15; 10]
           [0; 70; 50; 35; 15; 0; 1; 120; 55; 0; 2024; 1; 15; 10]);
    [reflexivity|done|exact Hb1|reflexivity|vm_compute; reflexivity].
Defined.

Lemma handler_writes_feature_keys_only_witness :
  ("Comment" ∉ FEATURES)
  ∧ (index (mk_request POST [("Comment", "7")]) NoFile (DEFAULTS_FALLBACK sample_clock)).2
      !! "Comment"
    = DEFAULTS_FALLBACK sample_clock !! "Comment".
Proof.
  assert ("Comment" ∉ FEATURES) as Hk by (apply (bool_decide_unpack _); vm_compute; exact I).
  split; [exact Hk|].
  exact (handler_writes_feature_keys_only (mk_request POST [("Comment", "7")]) NoFile
           (DEFAULTS_FALLBACK sample_clock) "Comment" Hk).
Defined.

Lemma vector_follows_training_order_witness :
  (build sample_form FEATURES [] (mk_hstate (DEFAULTS_FALLBACK sample_clock) Alias)).1
    = inr [1; 65; 50; 35; 15; 1; 1; 120; 55; 1; 2024; 1; 15; 10]
  ∧ length ([1; 65; 50; 35; 15; 1; 1; 120; 55; 1; 2024; 1; 15; 10] : list Z)
    = length DataProcessing.FEATURES.
Proof.
  assert ((build sample_form FEATURES []
             (mk_hstate (DEFAULTS_FALLBACK sample_clock) Alias)).1
          = inr [1; 65; 50; 35; 15; 1; 1; 120; 55; 1; 2024; 1; 15; 10]) as Hb
    by (vm_compute; reflexivity).
  split; [exact Hb|].
  exact (proj1 (vector_follows_training_order (PF := int_float) sample_form _ _ Hb)).
Defined.

Lemma unknown_class_index_is_labelled_witness :
  ∃ r G', @index int_float hour_model (mk_request POST []) NoFile
            (DEFAULTS_FALLBACK sample_clock) = (inr r, G')
          ∧ prediction r = Some ("Unknown (" ++ str_of_int 10 ++ ")").
Proof.
  apply (@unknown_class_index_is_labelled int_float hour_model [] NoFile
           (DEFAULTS_FALLBACK sample_clock)
           [0; 65; 50; 35; 15; 0; 1; 120; 55; 0; 2024; 1; 15; 10]
           [0; 65; 50; 35; 15; 0; 1; 120; 55; 0; 2024; 1; 15; 10] 10);
    [vm_compute; reflexivity|reflexivity|reflexivity|lia].
Defined.

Lemma unparsable_value_is_reported_witness :
  float_of_str "abc" = None
  ∧ ∃ r G', index (mk_request POST form_with_bad_year) NoFile
              (DEFAULTS_FALLBACK sample_clock) = (inr r, G')
            ∧ prediction r
              = Some ("Error: could not convert string to float: " ++ py_repr "abc").
Proof.
  split; [reflexivity|].
  apply (unparsable_value_is_reported (Laws := int_float_laws) sample_clock
           (DEFAULTS_FALLBACK sample_clock) NoFile form_with_bad_year "Year" "abc").
  - apply reach_init.
  - intros label Hl. discriminate Hl.
  - apply (bool_decide_unpack _). vm_compute. exact I.
  - done.
  - reflexivity.
  - reflexivity.
  - intros f raw' Hf _ Hl. unfold form_with_bad_year in Hl. simpl in Hl.
    case_decide; [congruence|discriminate].
Defined.

Lemma run_stops_on_missing_input_witness :
  DataProcessing.fs fresh_processing !! DataProcessing.input_path fresh_processing = None
  ∧ DataProcessing.run fresh_processing
    = (inl (CustomException "Failed to load data"
              (FileNotFoundError (DataProcessing.input_path fresh_processing))),
       fresh_processing).
Proof.
  split; [reflexivity|].
  apply (run_stops_on_missing_input fresh_processing). reflexivity.
Defined.

Lemma preprocess_drops_identifiers_witness :
  ∃ d', DataProcessing.preprocess loaded_processing
        = (inr tt, DataProcessing.set_df (Some d') loaded_processing)
    ∧ nrows d' = nrows sample_raw
    ∧ cols d' !! "Timestamp" = None
    ∧ cols d' !! "Machine_ID" = None.
Proof.
  destruct (preprocess_drops_identifiers loaded_processing sample_raw
              [VStr "2024-01-15 10:00:00"; VStr "not a date"] (nums [1; 2])
              ["Idle"; "Active"] ["Low"; "High"])
    as (d' & Hrun & Hrows & Hts & Hid & _); [reflexivity..|].
  exists d'. by repeat split.
Defined.

Lemma preprocess_twice_fails_witness :
  (DataProcessing.preprocess loaded_processing).1 = inr tt
  ∧ DataProcessing.preprocess (DataProcessing.preprocess loaded_processing).2 =
      (inl (CustomException "Failed to preprocess data" (KeyError "Timestamp")),
       (DataProcessing.preprocess loaded_processing).2).
Proof.
  apply (preprocess_twice_fails loaded_processing sample_raw
           [VStr "2024-01-15 10:00:00"; VStr "not a date"] (nums [1; 2])
           ["Idle"; "Active"] ["Low"; "High"]); reflexivity.
Defined.

Lemma split_fails_on_missing_feature_witness :
  cols sample_raw !! "Year" = None
  ∧ absent sample_raw DataProcessing.FEATURES =
      [ "Vibration_Hz"; "Power_Consumption_kW"; "Network_Latency_ms"; "Packet_Loss_%";
        "Quality_Control_Defect_Rate_%"; "Production_Speed_units_per_hr";
        "Predictive_Maintenance_Score"; "Error_Rate_%"; "Year"; "Month"; "Day"; "Hour" ]
  ∧ DataProcessing.split_and_scale_and_save loaded_processing =
      (inl (CustomException "Failed to split, scale, and save data"
              (KeyError "['Vibration_Hz', 'Power_Consumption_kW', 'Network_Latency_ms', 'Packet_Loss_%', 'Quality_Control_Defect_Rate_%', 'Production_Speed_units_per_hr', 'Predictive_Maintenance_Score', 'Error_Rate_%', 'Year', 'Month', 'Day', 'Hour'] not in index")),
       DataProcessing.set_features (Some DataProcessing.FEATURES) loaded_processing).
Proof.
  split; [reflexivity|]. split; [vm_compute; reflexivity|].
  destruct (split_fails_on_missing_feature loaded_processing sample_raw "Year")
    as (Hrun & _ & Hmsg); [reflexivity| |reflexivity|].
  { apply (bool_decide_unpack _). vm_compute. exact I. }
  rewrite Hrun, (Hmsg "Temperature_C").
  - reflexivity.
  - apply (bool_decide_unpack _). vm_compute. exact I.
  - by eexists.
Defined.

Lemma split_fails_on_empty_frame_witness :
  nrows empty_processed = 0%nat
  ∧ ∃ msg, DataProcessing.split_and_scale_and_save empty_processing =
      (inl (CustomException "Failed to split, scale, and save data" (ValueError msg)),
       DataProcessing.set_features (Some DataProcessing.FEATURES) empty_processing).
Proof.
  split; [reflexivity|].
  apply (split_fails_on_empty_frame empty_processing empty_processed
           (replicate 14 []) []); [reflexivity|vm_compute; reflexivity..|reflexivity].
Defined.

Lemma split_writes_five_artefacts_witness :
  DataProcessing.split_and_scale_and_save processed_processing
    = (inr tt, (DataProcessing.split_and_scale_and_save processed_processing).2)
  ∧ DataProcessing.df (DataProcessing.split_and_scale_and_save processed_processing).2
    = Some sample_processed
  ∧ ∀ n, n ∈ artefact_names →
      is_Some (DataProcessing.fs (DataProcessing.split_and_scale_and_save processed_processing).2
                 !! path_join "artifacts/processed" n).
Proof.
  assert (DataProcessing.split_and_scale_and_save processed_processing
          = (inr tt, (DataProcessing.split_and_scale_and_save processed_processing).2))
    as Hrun by (vm_compute; reflexivity).
  split; [exact Hrun|].
  destruct (split_writes_five_artefacts processed_processing _ Hrun)
    as (Hdf & _ & Hfiles & _).
  split; [exact Hdf|exact Hfiles].
Defined.

Lemma training_loads_written_partitions_witness :
  ∃ (X_train X_test : matrix) (y_train y_test : list val),
    ModelTraining.load_data
      (ModelTraining.init "artifacts/processed/" "artifacts/models/"
         (DataProcessing.fs (DataProcessing.split_and_scale_and_save processed_processing).2))
    = (inr tt,
       ModelTraining.mk_state "artifacts/processed/" "artifacts/models/" None
         (Some (AArray X_train)) (Some (AArray X_test))
         (Some (ASeries y_train)) (Some (ASeries y_test))
         (DataProcessing.fs (DataProcessing.split_and_scale_and_save processed_processing).2)
         []).
Proof.
  assert (DataProcessing.split_and_scale_and_save processed_processing
          = (inr tt, (DataProcessing.split_and_scale_and_save processed_processing).2))
    as Hrun by (vm_compute; reflexivity).
  destruct (training_loads_written_partitions processed_processing _
              "artifacts/processed/" "artifacts/models/" Hrun)
    as (X_train & X_test & y_train & y_test & _ & _ & _ & _ & Hload).
  - intros n Hn. unfold artefact_names in Hn.
    repeat (apply elem_of_cons in Hn as [->|Hn]; [reflexivity|]).
    by apply elem_of_nil in Hn.
  - by exists X_train, X_test, y_train, y_test.
Defined.

Lemma run_stops_at_first_missing_file_witness :
  ModelTraining.run partial_training =
    (inl (CustomException "Failed to load processed data"
            (FileNotFoundError "artifacts/processed/X_test.pkl")),
     ModelTraining.set_X_train (Some (AArray [[Some 1%Q]; [Some 2%Q]])) partial_training).
Proof.
  apply (run_stops_at_first_missing_file partial_training
           (AArray [[Some 1%Q]; [Some 2%Q]])); vm_compute; reflexivity.
Defined.

Lemma failed_training_bypasses_evaluation_guard_witness :
  ModelTraining.clf (ModelTraining.train_model fresh_training).2 = Some None
  ∧ ∃ e', ModelTraining.evaluate_model (ModelTraining.train_model fresh_training).2 =
      (inl (CustomException "Failed to evaluate model" (LibError "NotFittedError" e')),
       (ModelTraining.train_model fresh_training).2).
Proof.
  destruct (failed_training_bypasses_evaluation_guard fresh_training _ _ eq_refl eq_refl)
    as [Htrain Heval].
  split; [by rewrite Htrain|]. by eexists.
Defined.

Lemma label_codes_injective_witness :
  LabelEncoder.fit_transform sample_modes = inr [1; 0; 2; 1]
  ∧ (([1; 0; 2; 1] : list Z) !! 0%nat = ([1; 0; 2; 1] : list Z) !! 3%nat
     ↔ "Idle" = "Idle").
Proof.
  assert (LabelEncoder.fit_transform sample_modes = inr [1; 0; 2; 1]) as Hft
    by (vm_compute; reflexivity).
  split; [exact Hft|].
  exact (label_codes_injective sample_modes [1; 0; 2; 1] 0 3 "Idle" "Idle"
           Hft eq_refl eq_refl).
Defined.
End MoreInstances.
